(** * Acmemari/pecuaria: the generated end-to-end browser scenarios

    The repository holds four generated Playwright scripts
    (testsprite_tests/TC001, TC003, TC007, TC008).  Each one is a module
    with one coroutine [run_test] and the module-level statement
    [asyncio.run(run_test())].

    The scripts are embedded as programs of a small monad that threads the
    Python local variables and the log of the calls made to the browser
    automation library, and that keeps the state when an exception is
    raised, as [try ... finally] needs.  The browser, the pages and the
    application under test are outside the repository: they are an
    environment that answers every call (returns or raises, and how long it
    took). *)

From Stdlib Require Import List ZArith String Ascii Bool Lia.
Import ListNotations.
Local Open Scope string_scope.
Local Open Scope Z_scope.

(** ** Python exceptions and results *)

Module Py.

(** Exceptions created inside a call of the automation library:
    [playwright.async_api.Error], its subclass [TimeoutError], the
    [AssertionError] that the library's [expect] raises, and any other
    exception class. *)
Inductive api_exc : Type :=
| ApiError
| ApiTimeoutError
| ApiAssertionError
| ApiOther.

(** Exceptions a run can end with.  [AssertionError msg] is the one the
    script itself creates (a [raise AssertionError(msg)] or an [assert]
    statement); [SyntaxError] is raised by the interpreter when it
    compiles the module. *)
Inductive exn : Type :=
| Api (x : api_exc)
| NameError (name : string)
| AssertionError (msg : string)
| IndexError
| SyntaxError (line : nat).

(** The classes named in the [except] clauses of the scripts. *)
Inductive exc_class : Type :=
| cls_async_api_Error
| cls_AssertionError.

(** [isinstance e c]: [TimeoutError] is a subclass of [Error]. *)
Definition isinstance (e : exn) (c : exc_class) : bool :=
  match c, e with
  | cls_async_api_Error, Api ApiError => true
  | cls_async_api_Error, Api ApiTimeoutError => true
  | cls_AssertionError, Api ApiAssertionError => true
  | cls_AssertionError, AssertionError _ => true
  | _, _ => false
  end.

Inductive result (A : Type) : Type :=
| Ok (a : A)
| Raise (e : exn).
Arguments Ok {A} a.
Arguments Raise {A} e.

(** Names bound at module level by the two import statements and the
    [async def], the same in the four files:
    [import asyncio], [from playwright import async_api],
    [async def run_test()]. *)
Definition module_globals : list string :=
  ["asyncio"; "async_api"; "run_test"].

(** Built-in names the scripts use. *)
Definition builtins : list string := ["AssertionError"].

Definition bound (name : string) : bool :=
  existsb (String.eqb name) (module_globals ++ builtins).

End Py.
Import Py.

(** ** The browser automation calls *)

Module Playwright.

Inductive wait_until : Type := Commit | DomContentLoaded | Load | NetworkIdle.

(** The receiver of [wait_for_load_state]: the page, or the i-th element
    of [page.frames]. *)
Inductive receiver : Type := OnPage | OnFrame (i : nat).

(** One call of the library by a script.  A timeout argument is [None]
    when the call site gives none. *)
Inductive call : Type :=
| StartPlaywright                       (* async_playwright().start() *)
| LaunchChromium                        (* pw.chromium.launch(...) *)
| NewContext                            (* browser.new_context() *)
| SetDefaultTimeout (ms : Z)            (* context.set_default_timeout(ms) *)
| NewPage                               (* context.new_page() *)
| Goto (url : string) (wu : wait_until) (timeout : option Z)
| WaitForLoadState (r : receiver) (st : wait_until) (timeout : option Z)
| WaitForTimeout (ms : Z)               (* page.wait_for_timeout(ms) *)
| Fill (locator text : string) (timeout : option Z)
| Click (locator : string) (timeout : option Z)
| WaitForVisible (locator : string) (timeout : option Z)
                                        (* elem.wait_for(state="visible") *)
| IsVisible (locator : string)          (* elem.is_visible() *)
| ExpectVisible (locator : string) (timeout : option Z)
                                        (* expect(l).to_be_visible() *)
| Sleep (seconds : Z)                   (* asyncio.sleep(seconds) *)
| CloseContext                          (* context.close() *)
| CloseBrowser                          (* browser.close() *)
| StopPlaywright.                       (* pw.stop() *)

(** What the environment answers to a call: the exception raised inside
    it, if any, the time it took in milliseconds, and the boolean it
    returns (read by [is_visible] only). *)
Record reply : Type := Reply {
  raises : option api_exc;
  took   : Z;
  truth  : bool
}.

(** One line of the log: the call, the timeout budget it ran under (the
    one given at the call, else the session default in force), and the
    reply. *)
Record entry : Type := Entry {
  what   : call;
  budget : option Z;
  answer : reply
}.

(** The environment: browser, pages and application under test. *)
Record env : Type := Env {
  respond     : list entry -> call -> reply;
  page_frames : list entry -> nat;     (* len(page.frames) *)
  open_pages  : list entry -> nat      (* len(context.pages) *)
}.

(** The default timeout in force on the context after the calls of a
    log: the argument of the last [set_default_timeout], if any. *)
Fixpoint default_from (d : option Z) (h : list entry) : option Z :=
  match h with
  | [] => d
  | e :: h' =>
      default_from (match what e with
                    | SetDefaultTimeout ms => Some ms
                    | _ => d
                    end) h'
  end.

Definition default_in_force (h : list entry) : option Z := default_from None h.

Definition explicit_or (dflt given : option Z) : option Z :=
  match given with
  | Some t => Some t
  | None => dflt
  end.

(** The timeout budget of a call, [dflt] being the default set on the
    context with [set_default_timeout].  A pause lasts its argument.
    The calls that open and close the session take no timeout. *)
Definition budget_of (dflt : option Z) (c : call) : option Z :=
  match c with
  | Goto _ _ t => explicit_or dflt t
  | WaitForLoadState _ _ t => explicit_or dflt t
  | Fill _ _ t => explicit_or dflt t
  | Click _ t => explicit_or dflt t
  | WaitForVisible _ t => explicit_or dflt t
  | ExpectVisible _ t => explicit_or dflt t
  | WaitForTimeout ms => Some ms
  | Sleep s => Some (1000 * s)
  | _ => None
  end.

End Playwright.
Import Playwright.

(** ** The monad of the scripts *)

(** The local variables of [run_test] that the [finally] block reads
    ([false] is [None], [true] is a bound object) and the log. *)
Record state : Type := State {
  pw      : bool;
  browser : bool;
  context : bool;
  trace   : list entry
}.

Definition initial : state :=
  {| pw := false; browser := false; context := false; trace := [] |}.

Definition M (A : Type) : Type := env -> state -> state * result A.

Definition ret {A} (a : A) : M A := fun _ s => (s, Ok a).

Definition bind {A B} (m : M A) (k : A -> M B) : M B :=
  fun E s =>
    match m E s with
    | (s1, Ok a) => k a E s1
    | (s1, Raise e) => (s1, Raise e)
    end.

Definition raise {A} (e : exn) : M A := fun _ s => (s, Raise e).

Declare Scope py_scope.
Delimit Scope py_scope with py.
Notation "x <- m ;; k" := (bind m (fun x => k))
  (at level 61, m at next level, right associativity) : py_scope.
Notation "m ;; k" := (bind m (fun _ => k))
  (at level 61, right associativity) : py_scope.
Local Open Scope py_scope.

(** [try: body except cls: handler] *)
Definition try_except {A} (body : M A) (cls : exc_class) (handler : M A) : M A :=
  fun E s =>
    match body E s with
    | (s1, Ok a) => (s1, Ok a)
    | (s1, Raise e) =>
        if isinstance e cls then handler E s1 else (s1, Raise e)
    end.

(** [try: body finally: fin]: [fin] runs on every exit of [body]; an
    exception raised in [fin] replaces the pending one. *)
Definition try_finally {A} (body : M A) (fin : M unit) : M A :=
  fun E s =>
    match body E s with
    | (s1, r) =>
        match fin E s1 with
        | (s2, Ok _) => (s2, r)
        | (s2, Raise e) => (s2, Raise e)
        end
    end.

(** Evaluation of a global name. *)
Definition name (n : string) : M unit :=
  if bound n then ret tt else raise (NameError n).

(** Appending an entry to the log. *)
Definition log (s : state) (e : entry) : state :=
  {| pw := pw s; browser := browser s; context := context s;
     trace := trace s ++ [e] |}.

(** The entry logged for a call made after the log [h]: its budget comes
    from the call and from the default in force, its reply from the
    environment. *)
Definition entry_of (E : env) (h : list entry) (c : call) : entry :=
  Entry c (budget_of (default_in_force h) c) (respond E h c).

(** [await] of a library call: the call is logged, then it returns the
    reply or raises the exception of the reply. *)
Definition api (c : call) : M reply :=
  fun E s =>
    let r := respond E (trace s) c in
    let s1 := log s (entry_of E (trace s) c) in
    match raises r with
    | None => (s1, Ok r)
    | Some x => (s1, Raise (Api x))
    end.

Definition api_ (c : call) : M unit := api c ;; ret tt.

(** [context.pages[-1]] *)
Definition pages_last : M unit :=
  fun E s =>
    if Nat.eqb (open_pages E (trace s)) 0 then (s, Raise IndexError)
    else (s, Ok tt).

(** Assignments to the variables read by the [finally] block. *)
Definition set_pw : M unit :=
  fun _ s => ({| pw := true; browser := browser s; context := context s;
                 trace := trace s |}, Ok tt).
Definition set_browser : M unit :=
  fun _ s => ({| pw := pw s; browser := true; context := context s;
                 trace := trace s |}, Ok tt).
Definition set_context : M unit :=
  fun _ s => ({| pw := pw s; browser := browser s; context := true;
                 trace := trace s |}, Ok tt).

(** [context.set_default_timeout(ms)]: not awaited, it records the value
    on the context and returns. *)
Definition set_default_timeout (ms : Z) : M unit :=
  fun _ s => (log s (Entry (SetDefaultTimeout ms) None (Reply None 0 true)), Ok tt).

(** [v = await c]: the variable is bound when the call has returned. *)
Definition assign (c : call) (set_v : M unit) : M unit :=
  api_ c ;; set_v.

(** [if v: m] *)
Definition when (v : state -> bool) (m : M unit) : M unit :=
  fun E s => if v s then m E s else (s, Ok tt).

(** [for i in range(n): body i], with the iterable evaluated once. *)
Fixpoint for_range (i n : nat) (body : nat -> M unit) : M unit :=
  match n with
  | O => ret tt
  | S n' => body i ;; for_range (S i) n' body
  end.

(** ** The statements the generator emits *)

(** [await page.goto(url, wait_until="commit", timeout=10000)] *)
Definition goto (url : string) : M unit :=
  api_ (Goto url Commit (Some 10000)).

(** [try: await r.wait_for_load_state("domcontentloaded", timeout=3000)]
    [except async_api.Error: pass] *)
Definition wait_for_load_state (r : receiver) : M unit :=
  try_except (api_ (WaitForLoadState r DomContentLoaded (Some 3000)))
             cls_async_api_Error
             (ret tt).

(** [for frame in page.frames:] the same on every frame. *)
Definition wait_for_frames : M unit :=
  fun E s =>
    for_range 0 (page_frames E (trace s))
              (fun i => wait_for_load_state (OnFrame i)) E s.

(** [frame = context.pages[-1]]
    [elem = frame.locator(xpath).nth(0)]
    [await page.wait_for_timeout(3000); await elem.fill(text)] *)
Definition fill_step (xpath text : string) : M unit :=
  pages_last ;;
  api_ (WaitForTimeout 3000) ;;
  api_ (Fill xpath text None).

(** [frame = context.pages[-1]]
    [elem = frame.locator(xpath).nth(0)]
    [await page.wait_for_timeout(3000); await elem.click(timeout=5000)] *)
Definition click_step (xpath : string) : M unit :=
  pages_last ;;
  api_ (WaitForTimeout 3000) ;;
  api_ (Click xpath (Some 5000)).

(** The first navigation and the load-state waits on the page and on its
    frames (lines 32 to 45). *)
Definition first_navigation : M unit :=
  goto "http://localhost:3000" ;;
  wait_for_load_state OnPage ;;
  wait_for_frames.

(** The lines of [run_test] from [pw = await ...start()] to the end of the
    loop over [page.frames], the same in the four files. *)
Definition setup : M unit :=
  name "async_api" ;;
  assign StartPlaywright set_pw ;;
  assign LaunchChromium set_browser ;;
  assign NewContext set_context ;;
  set_default_timeout 5000 ;;
  api_ NewPage ;;
  first_navigation.

(** The [finally] block, the same in the four files. *)
Definition teardown : M unit :=
  when context (api_ CloseContext) ;;
  when browser (api_ CloseBrowser) ;;
  when pw (api_ StopPlaywright).

(** [await asyncio.sleep(seconds)] *)
Definition sleep (seconds : Z) : M unit :=
  name "asyncio" ;;
  api_ (Sleep seconds).

(** ** The actions of the four scenarios *)

(** The three statement shapes between the comment
    [# Interact with the page elements] and the assertion block. *)
Inductive action : Type :=
| Navigate (url : string)
| FillIn (xpath text : string)
| ClickOn (xpath : string).

Definition exec (a : action) : M unit :=
  match a with
  | Navigate url => goto url
  | FillIn xpath text => fill_step xpath text
  | ClickOn xpath => click_step xpath
  end.

Fixpoint run_actions (l : list action) : M unit :=
  match l with
  | [] => ret tt
  | a :: l' => exec a ;; run_actions l'
  end.

Definition root_url := "http://localhost:3000".
Definition root_slash_url := "http://localhost:3000/".
Definition login_url := "http://localhost:3000/login".
Definition atividades_url := "http://localhost:3000/iniciativas/atividades".

Definition email_input := "xpath=html/body/div/div/div/div[2]/form/div[1]/div/input".
Definition password_input := "xpath=html/body/div/div/div/div[2]/form/div[2]/div/input".
Definition submit_button := "xpath=html/body/div/div/div/div[2]/form/button".
Definition email_input_1 := "xpath=html/body/div[1]/div/div/div[2]/form/div[1]/div/input".
Definition password_input_1 := "xpath=html/body/div[1]/div/div/div[2]/form/div[2]/div/input".
Definition submit_button_1 := "xpath=html/body/div[1]/div/div/div[2]/form/button".
Definition entrar_button_1 := "xpath=html/body/div[1]/div/div/div[2]/div[2]/button[1]".
Definition signup_button := "xpath=html/body/div/div/div/div[3]/p/button".
Definition spinner_svg := "xpath=html/body/div/div/svg".

(** The assertion block of TC001, TC003 and TC008:
    [frame = context.pages[-1]]
    [try: await expect(frame.locator('text=...').first).to_be_visible(timeout=3000)]
    [except AssertionError: raise AssertionError(message)]
    The callee [expect] is evaluated before its argument. *)
Definition try_expect (text message : string) : M unit :=
  try_except
    (name "expect" ;; api_ (ExpectVisible ("text=" ++ text) (Some 3000)))
    cls_AssertionError
    (raise (AssertionError message)).

Definition expect_visible (text message : string) : M unit :=
  pages_last ;;
  try_expect text message.

(** [run_test] of a scenario: [try: setup; actions; assertion; sleep(5)]
    [finally: teardown], run by [asyncio.run] from the initial bindings
    [pw = browser = context = None]. *)
Definition run_test_of (actions : list action) (assertion : M unit) : M unit :=
  try_finally (setup ;; run_actions actions ;; assertion ;; sleep 5) teardown.

Definition dq : string := String (ascii_of_nat 34) EmptyString.

Module TC001.

Definition actions : list action :=
  [ Navigate root_url (* 49 *);
    Navigate login_url (* 52 *);
    FillIn email_input "example@gmail.com" (* 58 *);
    FillIn password_input "password123" (* 63 *);
    ClickOn submit_button (* 68 *);
    ClickOn signup_button (* 74 *);
    Navigate login_url (* 77 *);
    Navigate login_url (* 80 *);
    Navigate root_url (* 83 *);
    Navigate atividades_url (* 86 *) ].

Definition expected := "Iniciativa salva com sucesso.".

Definition message :=
  "Test case failed: Não foi possível verificar que a nova iniciativa foi cadastrada com sucesso. O teste esperava ver a mensagem de confirmação 'Iniciativa salva com sucesso.' e que 'Iniciativa E2E - Cadastro' aparecesse na lista, mas isso não ocorreu.".

Definition assertion : M unit := expect_visible expected message.

Definition run_test : M unit := run_test_of actions assertion.

End TC001.

Module TC008.

Definition actions : list action :=
  [ Navigate root_url (* 49 *);
    Navigate login_url (* 52 *);
    FillIn email_input "example@gmail.com" (* 58 *);
    FillIn password_input "password123" (* 63 *);
    ClickOn submit_button (* 68 *);
    FillIn email_input_1 "example@gmail.com" (* 74 *);
    FillIn password_input_1 "password123" (* 79 *);
    ClickOn entrar_button_1 (* 84 *);
    FillIn email_input "example@gmail.com" (* 90 *);
    FillIn password_input "password123" (* 95 *);
    ClickOn submit_button (* 100 *);
    ClickOn entrar_button_1 (* 106 *) ].

Definition expected := "Evidências salvas com sucesso".

Definition message :=
  "Test case failed: ao clicar em 'Salvar Evidências' esperava-se que as alterações fossem persistidas e o toast de sucesso 'Evidências salvas com sucesso' fosse exibido, mas o toast não apareceu.".

Definition assertion : M unit := expect_visible expected message.

Definition run_test : M unit := run_test_of actions assertion.

End TC008.

Module TC007.

Definition actions : list action :=
  [ Navigate root_url (* 49 *);
    Navigate login_url (* 52 *);
    Navigate login_url (* 55 *);
    ClickOn spinner_svg (* 61 *);
    FillIn email_input "example@gmail.com" (* 67 *);
    FillIn password_input "password123" (* 72 *);
    ClickOn submit_button (* 77 *);
    FillIn email_input "example@gmail.com" (* 83 *);
    FillIn password_input "password123" (* 88 *);
    ClickOn submit_button (* 93 *);
    FillIn email_input "example@gmail.com" (* 99 *);
    FillIn password_input "password123" (* 104 *);
    ClickOn submit_button (* 109 *) ].

Definition expected := "Evidências".

Definition message := "Expected " ++ dq ++ "Evidências" ++ dq ++ " to be visible".

(** [frame = context.pages[-1]] (twice)
    [elem = frame.locator("text=Evidências").nth(0)]
    [await elem.wait_for(state="visible", timeout=5000)]
    [assert await elem.is_visible(), message] *)
Definition assertion : M unit :=
  pages_last ;;
  pages_last ;;
  api_ (WaitForVisible ("text=" ++ expected) (Some 5000)) ;;
  r <- api (IsVisible ("text=" ++ expected)) ;;
  if truth r then ret tt else raise (AssertionError message).

Definition run_test : M unit := run_test_of actions assertion.

End TC007.

(** ** Compilation of a module

    The interpreter compiles the whole file before it executes its first
    statement.  The scanner below follows the lexical rules of the language
    reference that matter here: a comment runs from [#] to the end of the
    line, a string literal is delimited by one or three quotes and a
    backslash escapes the next character in it, and the characters [$],
    [?] and the backtick are an unconditional error outside string
    literals and comments.  It reports lexical errors only. *)

Module Lexer.

Local Open Scope char_scope.

Inductive mode : Type :=
| InCode
| InShort (q : ascii)      (* in a string opened by one quote *)
| InLong (q : ascii).      (* in a string opened by three quotes *)

Definition is_quote (c : ascii) : bool :=
  Ascii.eqb c "'" || Ascii.eqb c (ascii_of_nat 34).

Definition unused (c : ascii) : bool :=
  Ascii.eqb c "$" || Ascii.eqb c "?" || Ascii.eqb c "`".

(** Scans one physical line; [None] is a lexical error, otherwise the
    mode in which the next line starts. *)
Fixpoint scan (m : mode) (l : list ascii) {struct l} : option mode :=
  match l with
  | [] =>
      match m with
      | InShort _ => None
      | _ => Some m
      end
  | c :: r =>
      match m with
      | InCode =>
          if Ascii.eqb c "#" then Some InCode
          else if is_quote c then
            match r with
            | c1 :: c2 :: r' =>
                if Ascii.eqb c1 c && Ascii.eqb c2 c then scan (InLong c) r'
                else scan (InShort c) r
            | _ => scan (InShort c) r
            end
          else if unused c then None
          else scan InCode r
      | InShort q =>
          if Ascii.eqb c "\" then
            match r with
            | _ :: r' => scan (InShort q) r'
            | [] => Some (InShort q)
            end
          else if Ascii.eqb c q then scan InCode r
          else scan (InShort q) r
      | InLong q =>
          if Ascii.eqb c "\" then
            match r with
            | _ :: r' => scan (InLong q) r'
            | [] => Some (InLong q)
            end
          else if Ascii.eqb c q then
            match r with
            | c1 :: c2 :: r' =>
                if Ascii.eqb c1 q && Ascii.eqb c2 q then scan InCode r'
                else scan (InLong q) r
            | _ => scan (InLong q) r
            end
          else scan (InLong q) r
      end
  end.

(** The number of the first line with a lexical error, lines counted
    from [n]. *)
Fixpoint first_error_from (m : mode) (n : nat) (lines : list string) : option nat :=
  match lines with
  | [] =>
      match m with
      | InCode => None
      | _ => Some n
      end
  | l :: ls =>
      match scan m (list_ascii_of_string l) with
      | None => Some n
      | Some m' => first_error_from m' (S n) ls
      end
  end.

Definition first_error (lines : list string) : option nat :=
  first_error_from InCode 1 lines.

End Lexer.

(** Running a file: a file with a lexical error raises [SyntaxError] and
    executes nothing; otherwise the module-level statement
    [asyncio.run(run_test())] runs the coroutine. *)
Definition run_module (source : list string) (run_test : M unit) : M unit :=
  match Lexer.first_error source with
  | Some n => raise (SyntaxError n)
  | None => run_test
  end.

Module TC003.

Definition actions : list action :=
  [ Navigate root_url (* 49 *);
    FillIn email_input "example@gmail.com" (* 55 *);
    FillIn password_input "password123" (* 60 *);
    ClickOn submit_button (* 65 *);
    FillIn email_input_1 "example@gmail.com" (* 71 *);
    FillIn password_input_1 "password123" (* 76 *);
    FillIn email_input "example@gmail.com" (* 82 *);
    FillIn password_input "password123" (* 87 *);
    ClickOn submit_button (* 92 *);
    ClickOn entrar_button_1 (* 98 *);
    FillIn email_input "example@gmail.com" (* 104 *);
    FillIn password_input "password123" (* 109 *);
    ClickOn submit_button (* 114 *);
    Navigate root_slash_url (* 117 *);
    FillIn email_input "example@gmail.com" (* 123 *);
    FillIn password_input "password123" (* 128 *);
    ClickOn submit_button (* 133 *);
    FillIn email_input_1 "example@gmail.com" (* 139 *);
    FillIn password_input_1 "password123" (* 144 *);
    ClickOn entrar_button_1 (* 149 *);
    FillIn email_input_1 "example@gmail.com" (* 155 *);
    FillIn password_input_1 "password123" (* 160 *);
    ClickOn submit_button_1 (* 165 *);
    FillIn email_input "example@gmail.com" (* 171 *);
    FillIn password_input "password123" (* 176 *);
    ClickOn submit_button (* 181 *);
    FillIn email_input_1 "example@gmail.com" (* 187 *);
    FillIn password_input_1 "password123" (* 192 *);
    FillIn email_input "example@gmail.com" (* 198 *);
    FillIn password_input "password123" (* 203 *);
    ClickOn submit_button (* 208 *);
    FillIn email_input_1 "example@gmail.com" (* 214 *);
    FillIn password_input_1 "password123" (* 219 *);
    ClickOn entrar_button_1 (* 224 *);
    FillIn email_input_1 "example@gmail.com" (* 230 *);
    FillIn password_input_1 "password123" (* 235 *);
    ClickOn submit_button_1 (* 240 *);
    FillIn email_input "example@gmail.com" (* 246 *);
    FillIn password_input "password123" (* 251 *);
    ClickOn submit_button (* 256 *);
    FillIn email_input_1 "example@gmail.com" (* 262 *);
    FillIn password_input_1 "password123" (* 267 *);
    ClickOn entrar_button_1 (* 272 *);
    Navigate atividades_url (* 275 *);
    FillIn email_input "example@gmail.com" (* 281 *);
    FillIn password_input "password123" (* 286 *);
    ClickOn submit_button (* 291 *);
    FillIn email_input_1 "example@gmail.com" (* 297 *);
    FillIn password_input_1 "password123" (* 302 *);
    ClickOn entrar_button_1 (* 307 *);
    ClickOn submit_button_1 (* 313 *);
    Navigate atividades_url (* 316 *);
    FillIn email_input "example@gmail.com" (* 322 *);
    FillIn password_input "password123" (* 327 *);
    ClickOn submit_button (* 332 *) ].

Definition expected := "início não pode ser posterior ao fim".

Definition message :=
  "Test case failed: o teste verificava que o formulário impediria salvar quando a Data início (20/06/2026) é posterior à Data final (10/06/2026) e exibiria a mensagem de validação 'início não pode ser posterior ao fim', mas essa mensagem não foi encontrada".

(** The statements of lines 335 to 340, the two fence lines left out. *)
Definition assertion : M unit := expect_visible expected message.

(** [run_test] as the statements of the file read without the two fence
    lines; the file as it is does not get to define it, see [main]. *)
Definition run_test : M unit := run_test_of actions assertion.

(** The text of the file, line by line. *)
Definition source : list string :=
  [
    "import asyncio";
    "from playwright import async_api";
    EmptyString;
    "async def run_test():";
    "    pw = None";
    "    browser = None";
    "    context = None";
    EmptyString;
    "    try:";
    "        # Start a Playwright session in asynchronous mode";
    "        pw = await async_api.async_playwright().start()";
    EmptyString;
    "        # Launch a Chromium browser in headless mode with custom arguments";
    "        browser = await pw.chromium.launch(";
    "            headless=True,";
    "            args=[";
    "                " ++ dq ++ "--window-size=1280,720" ++ dq ++ ",         # Set the browser window size";
    "                " ++ dq ++ "--disable-dev-shm-usage" ++ dq ++ ",        # Avoid using /dev/shm which can cause issues in containers";
    "                " ++ dq ++ "--ipc=host" ++ dq ++ ",                     # Use host-level IPC for better stability";
    "                " ++ dq ++ "--single-process" ++ dq ++ "                # Run the browser in a single process mode";
    "            ],";
    "        )";
    EmptyString;
    "        # Create a new browser context (like an incognito window)";
    "        context = await browser.new_context()";
    "        context.set_default_timeout(5000)";
    EmptyString;
    "        # Open a new page in the browser context";
    "        page = await context.new_page()";
    EmptyString;
    "        # Navigate to your target URL and wait until the network request is committed";
    "        await page.goto(" ++ dq ++ "http://localhost:3000" ++ dq ++ ", wait_until=" ++ dq ++ "commit" ++ dq ++ ", timeout=10000)";
    EmptyString;
    "        # Wait for the main page to reach DOMContentLoaded state (optional for stability)";
    "        try:";
    "            await page.wait_for_load_state(" ++ dq ++ "domcontentloaded" ++ dq ++ ", timeout=3000)";
    "        except async_api.Error:";
    "            pass";
    EmptyString;
    "        # Iterate through all iframes and wait for them to load as well";
    "        for frame in page.frames:";
    "            try:";
    "                await frame.wait_for_load_state(" ++ dq ++ "domcontentloaded" ++ dq ++ ", timeout=3000)";
    "            except async_api.Error:";
    "                pass";
    EmptyString;
    "        # Interact with the page elements to simulate user flow";
    "        # -> Navigate to http://localhost:3000";
    "        await page.goto(" ++ dq ++ "http://localhost:3000" ++ dq ++ ", wait_until=" ++ dq ++ "commit" ++ dq ++ ", timeout=10000)";
    "        ";
    "        # -> Fill the login form with test credentials and submit (email: example@gmail.com, password: password123).";
    "        frame = context.pages[-1]";
    "        # Input text";
    "        elem = frame.locator('xpath=html/body/div/div/div/div[2]/form/div[1]/div/input').nth(0)";
    "        await page.wait_for_timeout(3000); await elem.fill('example@gmail.com')";
    "        ";
    "        frame = context.pages[-1]";
    "        # Input text";
    "        elem = frame.locator('xpath=html/body/div/div/div/div[2]/form/div[2]/div/input').nth(0)";
    "        await page.wait_for_timeout(3000); await elem.fill('password123')";
    "        ";
    "        frame = context.pages[-1]";
    "        # Click element";
    "        elem = frame.locator('xpath=html/body/div/div/div/div[2]/form/button').nth(0)";
    "        await page.wait_for_timeout(3000); await elem.click(timeout=5000)";
    "        ";
    "        # -> Fill the email and password inputs again and submit the login form (press Enter) to ensure successful authentication, then check for post-login navigation elements.";
    "        frame = context.pages[-1]";
    "        # Input text";
    "        elem = frame.locator('xpath=html/body/div[1]/div/div/div[2]/form/div[1]/div/input').nth(0)";
    "        await page.wait_for_timeout(3000); await elem.fill('example@gmail.com')";
    "        ";
    "        frame = context.pages[-1]";
    "        # Input text";
    "        elem = frame.locator('xpath=html/body/div[1]/div/div/div[2]/form/div[2]/div/input').nth(0)";
    "        await page.wait_for_timeout(3000); await elem.fill('password123')";
    "        ";
    "        # -> Fill the login form using inputs [178] (email) and [179] (password) and click the visible Entrar button [182] to authenticate, then wait for post-login navigation and detect sidebar links (Iniciativas).";
    "        frame = context.pages[-1]";
    "        # Input text";
    "        elem = frame.locator('xpath=html/body/div/div/div/div[2]/form/div[1]/div/input').nth(0)";
    "        await page.wait_for_timeout(3000); await elem.fill('example@gmail.com')";
    "        ";
    "        frame = context.pages[-1]";
    "        # Input text";
    "        elem = frame.locator('xpath=html/body/div/div/div/div[2]/form/div[2]/div/input').nth(0)";
    "        await page.wait_for_timeout(3000); await elem.fill('password123')";
    "        ";
    "        frame = context.pages[-1]";
    "        # Click element";
    "        elem = frame.locator('xpath=html/body/div/div/div/div[2]/form/button').nth(0)";
    "        await page.wait_for_timeout(3000); await elem.click(timeout=5000)";
    "        ";
    "        # -> Submit the login form by clicking the visible 'Entrar' button (index 165) to attempt authentication, then wait for the page to navigate.";
    "        frame = context.pages[-1]";
    "        # Click element";
    "        elem = frame.locator('xpath=html/body/div[1]/div/div/div[2]/div[2]/button[1]').nth(0)";
    "        await page.wait_for_timeout(3000); await elem.click(timeout=5000)";
    "        ";
    "        # -> Fill email and password using inputs [376] and [385], then click the Entrar button [395] to attempt authentication.";
    "        frame = context.pages[-1]";
    "        # Input text";
    "        elem = frame.locator('xpath=html/body/div/div/div/div[2]/form/div[1]/div/input').nth(0)";
    "        await page.wait_for_timeout(3000); await elem.fill('example@gmail.com')";
    "        ";
    "        frame = context.pages[-1]";
    "        # Input text";
    "        elem = frame.locator('xpath=html/body/div/div/div/div[2]/form/div[2]/div/input').nth(0)";
    "        await page.wait_for_timeout(3000); await elem.fill('password123')";
    "        ";
    "        frame = context.pages[-1]";
    "        # Click element";
    "        elem = frame.locator('xpath=html/body/div/div/div/div[2]/form/button').nth(0)";
    "        await page.wait_for_timeout(3000); await elem.click(timeout=5000)";
    "        ";
    "        # -> Reload the application (navigate to http://localhost:3000/) and wait for the SPA to finish loading so interactive elements (login form) become available.";
    "        await page.goto(" ++ dq ++ "http://localhost:3000/" ++ dq ++ ", wait_until=" ++ dq ++ "commit" ++ dq ++ ", timeout=10000)";
    "        ";
    "        # -> Fill email and password using inputs [600] and [601], then click the Entrar submit button [604] to authenticate. Wait for post-login navigation and then locate sidebar item 'Iniciativas'.";
    "        frame = context.pages[-1]";
    "        # Input text";
    "        elem = frame.locator('xpath=html/body/div/div/div/div[2]/form/div[1]/div/input').nth(0)";
    "        await page.wait_for_timeout(3000); await elem.fill('example@gmail.com')";
    "        ";
    "        frame = context.pages[-1]";
    "        # Input text";
    "        elem = frame.locator('xpath=html/body/div/div/div/div[2]/form/div[2]/div/input').nth(0)";
    "        await page.wait_for_timeout(3000); await elem.fill('password123')";
    "        ";
    "        frame = context.pages[-1]";
    "        # Click element";
    "        elem = frame.locator('xpath=html/body/div/div/div/div[2]/form/button').nth(0)";
    "        await page.wait_for_timeout(3000); await elem.click(timeout=5000)";
    "        ";
    "        # -> Fill E-mail and Senha fields (indexes 600 and 601) with test credentials and click the Entrar button (index 598) to attempt authentication.";
    "        frame = context.pages[-1]";
    "        # Input text";
    "        elem = frame.locator('xpath=html/body/div[1]/div/div/div[2]/form/div[1]/div/input').nth(0)";
    "        await page.wait_for_timeout(3000); await elem.fill('example@gmail.com')";
    "        ";
    "        frame = context.pages[-1]";
    "        # Input text";
    "        elem = frame.locator('xpath=html/body/div[1]/div/div/div[2]/form/div[2]/div/input').nth(0)";
    "        await page.wait_for_timeout(3000); await elem.fill('password123')";
    "        ";
    "        frame = context.pages[-1]";
    "        # Click element";
    "        elem = frame.locator('xpath=html/body/div[1]/div/div/div[2]/div[2]/button[1]').nth(0)";
    "        await page.wait_for_timeout(3000); await elem.click(timeout=5000)";
    "        ";
    "        # -> Fill the login form using inputs [600] and [601], click the Entrar button [604], then wait 2 seconds for post-login navigation and detect sidebar links (Iniciativas).";
    "        frame = context.pages[-1]";
    "        # Input text";
    "        elem = frame.locator('xpath=html/body/div[1]/div/div/div[2]/form/div[1]/div/input').nth(0)";
    "        await page.wait_for_timeout(3000); await elem.fill('example@gmail.com')";
    "        ";
    "        frame = context.pages[-1]";
    "        # Input text";
    "        elem = frame.locator('xpath=html/body/div[1]/div/div/div[2]/form/div[2]/div/input').nth(0)";
    "        await page.wait_for_timeout(3000); await elem.fill('password123')";
    "        ";
    "        frame = context.pages[-1]";
    "        # Click element";
    "        elem = frame.locator('xpath=html/body/div[1]/div/div/div[2]/form/button').nth(0)";
    "        await page.wait_for_timeout(3000); await elem.click(timeout=5000)";
    "        ";
    "        # -> Fill the login form using inputs [771] (email) and [772] (password), click the Entrar button [775], then wait briefly for post-login navigation and detect Iniciativas in the sidebar.";
    "        frame = context.pages[-1]";
    "        # Input text";
    "        elem = frame.locator('xpath=html/body/div/div/div/div[2]/form/div[1]/div/input').nth(0)";
    "        await page.wait_for_timeout(3000); await elem.fill('example@gmail.com')";
    "        ";
    "        frame = context.pages[-1]";
    "        # Input text";
    "        elem = frame.locator('xpath=html/body/div/div/div/div[2]/form/div[2]/div/input').nth(0)";
    "        await page.wait_for_timeout(3000); await elem.fill('password123')";
    "        ";
    "        frame = context.pages[-1]";
    "        # Click element";
    "        elem = frame.locator('xpath=html/body/div/div/div/div[2]/form/button').nth(0)";
    "        await page.wait_for_timeout(3000); await elem.click(timeout=5000)";
    "        ";
    "        # -> Fill the email and password into inputs [771] and [772], send Enter to submit the login form, then wait briefly for post-login navigation (to find Iniciativas in the sidebar). If login still fails, prepare to use an alternative recovery path.";
    "        frame = context.pages[-1]";
    "        # Input text";
    "        elem = frame.locator('xpath=html/body/div[1]/div/div/div[2]/form/div[1]/div/input').nth(0)";
    "        await page.wait_for_timeout(3000); await elem.fill('example@gmail.com')";
    "        ";
    "        frame = context.pages[-1]";
    "        # Input text";
    "        elem = frame.locator('xpath=html/body/div[1]/div/div/div[2]/form/div[2]/div/input').nth(0)";
    "        await page.wait_for_timeout(3000); await elem.fill('password123')";
    "        ";
    "        # -> Fill the email and password into inputs [980] and [989] and click the Entrar submit button [999] to attempt authentication. Then wait for post-login navigation to locate 'Iniciativas' in the sidebar.";
    "        frame = context.pages[-1]";
    "        # Input text";
    "        elem = frame.locator('xpath=html/body/div/div/div/div[2]/form/div[1]/div/input').nth(0)";
    "        await page.wait_for_timeout(3000); await elem.fill('example@gmail.com')";
    "        ";
    "        frame = context.pages[-1]";
    "        # Input text";
    "        elem = frame.locator('xpath=html/body/div/div/div/div[2]/form/div[2]/div/input').nth(0)";
    "        await page.wait_for_timeout(3000); await elem.fill('password123')";
    "        ";
    "        frame = context.pages[-1]";
    "        # Click element";
    "        elem = frame.locator('xpath=html/body/div/div/div/div[2]/form/button').nth(0)";
    "        await page.wait_for_timeout(3000); await elem.click(timeout=5000)";
    "        ";
    "        # -> Preencher os campos de E-mail e Senha (índices 980 e 989) e clicar no botão Entrar (índice 972) para tentar autenticar (tentativa direta #8).";
    "        frame = context.pages[-1]";
    "        # Input text";
    "        elem = frame.locator('xpath=html/body/div[1]/div/div/div[2]/form/div[1]/div/input').nth(0)";
    "        await page.wait_for_timeout(3000); await elem.fill('example@gmail.com')";
    "        ";
    "        frame = context.pages[-1]";
    "        # Input text";
    "        elem = frame.locator('xpath=html/body/div[1]/div/div/div[2]/form/div[2]/div/input').nth(0)";
    "        await page.wait_for_timeout(3000); await elem.fill('password123')";
    "        ";
    "        frame = context.pages[-1]";
    "        # Click element";
    "        elem = frame.locator('xpath=html/body/div[1]/div/div/div[2]/div[2]/button[1]').nth(0)";
    "        await page.wait_for_timeout(3000); await elem.click(timeout=5000)";
    "        ";
    "        # -> Fill the email and password into inputs [980] and [989] and click the Entrar submit button [999]; then wait and check for post-login navigation (sidebar 'Iniciativas'). If login fails, prepare alternative recovery.";
    "        frame = context.pages[-1]";
    "        # Input text";
    "        elem = frame.locator('xpath=html/body/div[1]/div/div/div[2]/form/div[1]/div/input').nth(0)";
    "        await page.wait_for_timeout(3000); await elem.fill('example@gmail.com')";
    "        ";
    "        frame = context.pages[-1]";
    "        # Input text";
    "        elem = frame.locator('xpath=html/body/div[1]/div/div/div[2]/form/div[2]/div/input').nth(0)";
    "        await page.wait_for_timeout(3000); await elem.fill('password123')";
    "        ";
    "        frame = context.pages[-1]";
    "        # Click element";
    "        elem = frame.locator('xpath=html/body/div[1]/div/div/div[2]/form/button').nth(0)";
    "        await page.wait_for_timeout(3000); await elem.click(timeout=5000)";
    "        ";
    "        # -> Preencher E-mail e Senha nos inputs [1100] e [1101] com as credenciais de teste e clicar no botão Entrar [1104]; aguardar breve para detectar navegação pós-login (menu 'Iniciativas').";
    "        frame = context.pages[-1]";
    "        # Input text";
    "        elem = frame.locator('xpath=html/body/div/div/div/div[2]/form/div[1]/div/input').nth(0)";
    "        await page.wait_for_timeout(3000); await elem.fill('example@gmail.com')";
    "        ";
    "        frame = context.pages[-1]";
    "        # Input text";
    "        elem = frame.locator('xpath=html/body/div/div/div/div[2]/form/div[2]/div/input').nth(0)";
    "        await page.wait_for_timeout(3000); await elem.fill('password123')";
    "        ";
    "        frame = context.pages[-1]";
    "        # Click element";
    "        elem = frame.locator('xpath=html/body/div/div/div/div[2]/form/button').nth(0)";
    "        await page.wait_for_timeout(3000); await elem.click(timeout=5000)";
    "        ";
    "        # -> Attempt final direct login using inputs [1100] and [1101] and click Entrar [1096]. Wait 2s for navigation. If login still fails, switch to recovery strategy (open new tab / report issue).";
    "        frame = context.pages[-1]";
    "        # Input text";
    "        elem = frame.locator('xpath=html/body/div[1]/div/div/div[2]/form/div[1]/div/input').nth(0)";
    "        await page.wait_for_timeout(3000); await elem.fill('example@gmail.com')";
    "        ";
    "        frame = context.pages[-1]";
    "        # Input text";
    "        elem = frame.locator('xpath=html/body/div[1]/div/div/div[2]/form/div[2]/div/input').nth(0)";
    "        await page.wait_for_timeout(3000); await elem.fill('password123')";
    "        ";
    "        frame = context.pages[-1]";
    "        # Click element";
    "        elem = frame.locator('xpath=html/body/div[1]/div/div/div[2]/div[2]/button[1]').nth(0)";
    "        await page.wait_for_timeout(3000); await elem.click(timeout=5000)";
    "        ";
    "        # -> Recovery: open a new tab and navigate directly to /iniciativas/atividades to check if the route is accessible or to gather more info about authentication blocking. If the page requires authentication, report site issue next.";
    "        await page.goto(" ++ dq ++ "http://localhost:3000/iniciativas/atividades" ++ dq ++ ", wait_until=" ++ dq ++ "commit" ++ dq ++ ", timeout=10000)";
    "        ";
    "        # -> Fill email and password on the login form and click 'Entrar', then wait for post-login navigation and locate the 'Iniciativas' sidebar item.";
    "        frame = context.pages[-1]";
    "        # Input text";
    "        elem = frame.locator('xpath=html/body/div/div/div/div[2]/form/div[1]/div/input').nth(0)";
    "        await page.wait_for_timeout(3000); await elem.fill('example@gmail.com')";
    "        ";
    "        frame = context.pages[-1]";
    "        # Input text";
    "        elem = frame.locator('xpath=html/body/div/div/div/div[2]/form/div[2]/div/input').nth(0)";
    "        await page.wait_for_timeout(3000); await elem.fill('password123')";
    "        ";
    "        frame = context.pages[-1]";
    "        # Click element";
    "        elem = frame.locator('xpath=html/body/div/div/div/div[2]/form/button').nth(0)";
    "        await page.wait_for_timeout(3000); await elem.click(timeout=5000)";
    "        ";
    "        # -> Fill email and password using inputs [1337] and [1346], then click the Entrar button [1329] to attempt authentication and proceed to the Iniciativas > Atividades flow.";
    "        frame = context.pages[-1]";
    "        # Input text";
    "        elem = frame.locator('xpath=html/body/div[1]/div/div/div[2]/form/div[1]/div/input').nth(0)";
    "        await page.wait_for_timeout(3000); await elem.fill('example@gmail.com')";
    "        ";
    "        frame = context.pages[-1]";
    "        # Input text";
    "        elem = frame.locator('xpath=html/body/div[1]/div/div/div[2]/form/div[2]/div/input').nth(0)";
    "        await page.wait_for_timeout(3000); await elem.fill('password123')";
    "        ";
    "        frame = context.pages[-1]";
    "        # Click element";
    "        elem = frame.locator('xpath=html/body/div[1]/div/div/div[2]/div[2]/button[1]').nth(0)";
    "        await page.wait_for_timeout(3000); await elem.click(timeout=5000)";
    "        ";
    "        # -> Tentar submeter o formulário de login clicando no botão de submit do formulário (índice 1356), então aguardar a navegação e procurar o menu 'Iniciativas' na interface.";
    "        frame = context.pages[-1]";
    "        # Click element";
    "        elem = frame.locator('xpath=html/body/div[1]/div/div/div[2]/form/button').nth(0)";
    "        await page.wait_for_timeout(3000); await elem.click(timeout=5000)";
    "        ";
    "        # -> Recarregar a rota /iniciativas/atividades para forçar o carregamento da SPA nesta aba e então re-detectar elementos (login ou interface de Iniciativas). Se a página continuar vazia, preparar estratégia de recuperação (recarregar root, abrir nova aba limpa ou reportar problema).";
    "        await page.goto(" ++ dq ++ "http://localhost:3000/iniciativas/atividades" ++ dq ++ ", wait_until=" ++ dq ++ "commit" ++ dq ++ ", timeout=10000)";
    "        ";
    "        # -> Fill E-mail and Senha fields using inputs [1631] and [1640], click 'Entrar' [1650], then wait for post-login navigation to locate the 'Iniciativas' menu.";
    "        frame = context.pages[-1]";
    "        # Input text";
    "        elem = frame.locator('xpath=html/body/div/div/div/div[2]/form/div[1]/div/input').nth(0)";
    "        await page.wait_for_timeout(3000); await elem.fill('example@gmail.com')";
    "        ";
    "        frame = context.pages[-1]";
    "        # Input text";
    "        elem = frame.locator('xpath=html/body/div/div/div/div[2]/form/div[2]/div/input').nth(0)";
    "        await page.wait_for_timeout(3000); await elem.fill('password123')";
    "        ";
    "        frame = context.pages[-1]";
    "        # Click element";
    "        elem = frame.locator('xpath=html/body/div/div/div/div[2]/form/button').nth(0)";
    "        await page.wait_for_timeout(3000); await elem.click(timeout=5000)";
    "        ";
    "        # --> Assertions to verify final state";
    "        frame = context.pages[-1]";
    "        ```";
    "        try:";
    "            await expect(frame.locator('text=início não pode ser posterior ao fim').first).to_be_visible(timeout=3000)";
    "        except AssertionError:";
    "            raise AssertionError(" ++ dq ++ "Test case failed: o teste verificava que o formulário impediria salvar quando a Data início (20/06/2026) é posterior à Data final (10/06/2026) e exibiria a mensagem de validação 'início não pode ser posterior ao fim', mas essa mensagem não foi encontrada" ++ dq ++ ")";
    "        ```";
    "        await asyncio.sleep(5)";
    EmptyString;
    "    finally:";
    "        if context:";
    "            await context.close()";
    "        if browser:";
    "            await browser.close()";
    "        if pw:";
    "            await pw.stop()";
    EmptyString;
    "asyncio.run(run_test())";
    "    "
  ].

Definition main : M unit := run_module source run_test.

End TC003.

(** ** The four scenarios *)

Inductive scenario : Type := tc001 | tc003 | tc007 | tc008.

Definition actions_of (sc : scenario) : list action :=
  match sc with
  | tc001 => TC001.actions
  | tc003 => TC003.actions
  | tc007 => TC007.actions
  | tc008 => TC008.actions
  end.

Definition assertion_of (sc : scenario) : M unit :=
  match sc with
  | tc001 => TC001.assertion
  | tc003 => TC003.assertion
  | tc007 => TC007.assertion
  | tc008 => TC008.assertion
  end.

(** The coroutine [run_test] of a file, as its statements read. *)
Definition run_test (sc : scenario) : M unit :=
  run_test_of (actions_of sc) (assertion_of sc).

(** Running a file with the interpreter.  TC001, TC007 and TC008 compile,
    and running them runs their coroutine; TC003 goes through
    [run_module] on its text. *)
Definition main (sc : scenario) : M unit :=
  match sc with
  | tc003 => TC003.main
  | _ => run_test sc
  end.

(** The run of a file from a fresh interpreter. *)
Definition run (sc : scenario) (E : env) : state * result unit :=
  main sc E initial.

(** The exit status of the interpreter process: 0 when the module ran to
    its end, 1 when an exception (a [SyntaxError] included) was left
    uncaught. *)
Definition exit_code (r : result unit) : Z :=
  match r with
  | Ok _ => 0
  | Raise _ => 1
  end.

(** ** Observations on a log *)

Definition returned (e : entry) : bool :=
  match raises (answer e) with
  | None => true
  | Some _ => false
  end.

(** The resources of a session. *)
Inductive resource : Type := Driver | Browser | Context | Page.

Definition acquires (r : resource) (c : call) : bool :=
  match r, c with
  | Driver, StartPlaywright => true
  | Browser, LaunchChromium => true
  | Context, NewContext => true
  | Page, NewPage => true
  | _, _ => false
  end.

(** Closing a context closes its pages. *)
Definition releases (r : resource) (c : call) : bool :=
  match r, c with
  | Driver, StopPlaywright => true
  | Browser, CloseBrowser => true
  | Context, CloseContext => true
  | Page, CloseContext => true
  | _, _ => false
  end.

Definition is_release (c : call) : bool :=
  match c with
  | CloseContext | CloseBrowser | StopPlaywright => true
  | _ => false
  end.

(** The resource a release call closes. *)
Definition closed_by (c : call) : resource :=
  match c with
  | CloseContext => Context
  | CloseBrowser => Browser
  | _ => Driver
  end.

(** The resources held after a log: a call that returned acquires or
    releases; a call that raised changes nothing. *)
Definition step_held (held : resource -> bool) (e : entry) : resource -> bool :=
  fun r =>
    if returned e
    then (held r || acquires r (what e)) && negb (releases r (what e))
    else held r.

Definition held_after (t : list entry) : resource -> bool :=
  fold_left step_held t (fun _ => false).

Definition allocated (t : list entry) : list resource :=
  filter (held_after t) [Driver; Browser; Context; Page].

(** The kinds of suspension points: every awaited call is one.  The
    calls that open and close the session are awaited too;
    [elem.is_visible()] is the second await of the assertion of TC007. *)
Inductive suspension : Type :=
| Navigation | ElementWait | LoadStateWait | Pause | TerminalAssertion
| SessionCall.

(** The kind of a call; [context.set_default_timeout] is the one call
    that is not awaited. *)
Definition suspension_kind (c : call) : option suspension :=
  match c with
  | StartPlaywright => Some SessionCall
  | LaunchChromium => Some SessionCall
  | NewContext => Some SessionCall
  | SetDefaultTimeout _ => None
  | NewPage => Some SessionCall
  | Goto _ _ _ => Some Navigation
  | WaitForLoadState _ _ _ => Some LoadStateWait
  | WaitForTimeout _ => Some Pause
  | Fill _ _ _ => Some ElementWait
  | Click _ _ => Some ElementWait
  | WaitForVisible _ _ => Some TerminalAssertion
  | IsVisible _ => Some TerminalAssertion
  | ExpectVisible _ _ => Some TerminalAssertion
  | Sleep _ => Some Pause
  | CloseContext => Some SessionCall
  | CloseBrowser => Some SessionCall
  | StopPlaywright => Some SessionCall
  end.

(** The awaited calls that are written without a timeout and to which the
    default set on the context does not apply: the calls that open and
    close the session, and [elem.is_visible()].  Whatever limit the
    library may apply to one of them on its own is neither written in the
    scripts nor set by [context.set_default_timeout]. *)
Definition untimed (c : call) : bool :=
  match c with
  | StartPlaywright | LaunchChromium | NewContext | NewPage
  | IsVisible _
  | CloseContext | CloseBrowser | StopPlaywright => true
  | _ => false
  end.

(** The timeout written at the call site (for a pause, its duration). *)
Definition explicit_timeout (c : call) : option Z :=
  match c with
  | Goto _ _ t => t
  | WaitForLoadState _ _ t => t
  | Fill _ _ t => t
  | Click _ t => t
  | WaitForVisible _ t => t
  | ExpectVisible _ t => t
  | WaitForTimeout ms => Some ms
  | Sleep s => Some (1000 * s)
  | _ => None
  end.

(** The argument of [context.set_default_timeout] in the four files. *)
Definition session_default : Z := 5000.

(** A suspension point with a bounded timeout, given at the call or
    inherited from the session default. *)
Definition bounded_wait (e : entry) : Prop :=
  match suspension_kind (what e) with
  | None => True
  | Some _ =>
      exists b, budget e = Some b /\ 0 < b <= 10000 /\
                (explicit_timeout (what e) = Some b \/
                 (explicit_timeout (what e) = None /\ b = session_default))
  end.

(** Time spent in the calls of a log, and in its suspension points. *)
Definition elapsed (t : list entry) : Z :=
  fold_right (fun e acc => took (answer e) + acc) 0 t.

Definition is_suspension (e : entry) : bool :=
  match suspension_kind (what e) with
  | Some _ => true
  | None => false
  end.

Definition waits (t : list entry) : list entry := filter is_suspension t.

(** The suspension points of a log that run under a timeout, and those
    that do not. *)
Definition timed_waits (t : list entry) : list entry :=
  filter (fun e => is_suspension e && negb (untimed (what e))) t.

Definition untimed_awaits (t : list entry) : list entry :=
  filter (fun e => untimed (what e)) t.

(** What the code gives each call: no timeout to an untimed call, a
    bounded one to every other suspension point. *)
Definition timed_or_untimed (e : entry) : Prop :=
  if untimed (what e) then budget e = None else bounded_wait e.

(** A call keeps to its budget: a pause lasts its argument, a timed call
    returns or raises within its budget. *)
Definition on_time (e : entry) : Prop :=
  match budget e with
  | Some b => 0 <= took (answer e) <= b
  | None => 0 <= took (answer e)
  end.

(** The shape of every call the scripts make; [expect(...).to_be_visible]
    is never called. *)
Definition scripted (e : entry) : Prop :=
  match what e with
  | Goto _ wu t => wu = Commit /\ t = Some 10000 /\ budget e = Some 10000
  | WaitForLoadState _ st t =>
      st = DomContentLoaded /\ t = Some 3000 /\ budget e = Some 3000
  | WaitForTimeout ms => ms = 3000 /\ budget e = Some 3000
  | Fill _ _ t => t = None /\ budget e = Some session_default
  | Click _ t => t = Some 5000 /\ budget e = Some 5000
  | WaitForVisible _ t => t = Some 5000 /\ budget e = Some 5000
  | ExpectVisible _ _ => False
  | Sleep s => s = 5 /\ budget e = Some 5000
  | SetDefaultTimeout ms => ms = session_default
  | _ => True
  end.

(** The library calls an action makes, in order. *)
Definition script_calls (a : action) : list call :=
  match a with
  | Navigate url => [Goto url Commit (Some 10000)]
  | FillIn xpath text => [WaitForTimeout 3000; Fill xpath text None]
  | ClickOn xpath => [WaitForTimeout 3000; Click xpath (Some 5000)]
  end.

Definition is_click_on (xpath : string) (c : call) : bool :=
  match c with
  | Click l _ => String.eqb l xpath
  | _ => false
  end.

(** Clicks on a control that returned. *)
Definition returned_clicks (xpath : string) (t : list entry) : nat :=
  List.length (filter (fun e => is_click_on xpath (what e) && returned e) t).

Definition clicks_in (xpath : string) (l : list call) : nat :=
  List.length (filter (is_click_on xpath) l).

Fixpoint is_prefix (l1 l2 : list call) : Prop :=
  match l1, l2 with
  | [], _ => True
  | c1 :: l1', c2 :: l2' => c1 = c2 /\ is_prefix l1' l2'
  | _ :: _, [] => False
  end.

(** ** The vocabulary of the specification *)

Module Spec.

Inductive status : Type := Passed | Failed | Errored.

(** The outcome of a run as the specification names it: a normal return
    is Passed, an assertion failure is Failed, any other exception is
    Errored. *)
Definition status_of (r : result unit) : status :=
  match r with
  | Ok _ => Passed
  | Raise e => if isinstance e cls_AssertionError then Failed else Errored
  end.

(** The exit codes the specification gives to the three outcomes. *)
Definition exit_code_of (st : status) : Z :=
  match st with
  | Passed => 0
  | Failed => 1
  | Errored => 2
  end.

(** A submitted login is not submitted again. *)
Definition no_resubmission (t : list entry) : Prop :=
  (returned_clicks submit_button t <= 1)%nat.

(** An interactive step stays within the budget of its action. *)
Definition within_budget (action_timeout : Z) (t : list entry) : Prop :=
  elapsed t <= action_timeout.

End Spec.

(** [contains needle hay]: [needle] occurs in [hay]. *)
Definition contains (needle hay : string) : bool :=
  match String.index 0 needle hay with
  | Some _ => true
  | None => false
  end.

(** ** Some environments *)

(** How long a call takes in the environments below: a pause lasts its
    argument, a click 2500 ms, anything else 100 ms. *)
Definition typical_duration (c : call) : Z :=
  match c with
  | WaitForTimeout ms => ms
  | Sleep s => 1000 * s
  | Click _ _ => 2500
  | _ => 100
  end.

Definition fixed_env (f : call -> reply) : env :=
  {| respond := fun _ c => f c;
     page_frames := fun _ => 1%nat;
     open_pages := fun _ => 1%nat |}.

(** Every call returns; the awaited text is reported visible. *)
Definition all_return : env :=
  fixed_env (fun c => Reply None (typical_duration c) true).

(** The browser fails to launch. *)
Definition launch_fails : env :=
  fixed_env (fun c =>
    match c with
    | LaunchChromium => Reply (Some ApiError) 100 false
    | _ => Reply None (typical_duration c) true
    end).

(** Every call returns, but the awaited text never becomes visible: the
    waits for it time out, [expect] fails and [is_visible] is false. *)
Definition never_visible : env :=
  fixed_env (fun c =>
    match c with
    | WaitForVisible _ (Some t) => Reply (Some ApiTimeoutError) t false
    | ExpectVisible _ (Some t) => Reply (Some ApiAssertionError) t false
    | IsVisible _ => Reply None 100 false
    | _ => Reply None (typical_duration c) true
    end).

(** The load-state waits time out, the element is present but hidden. *)
Definition slow_load_hidden : env :=
  fixed_env (fun c =>
    match c with
    | WaitForLoadState _ _ (Some t) => Reply (Some ApiTimeoutError) t false
    | IsVisible _ => Reply None 100 false
    | _ => Reply None (typical_duration c) true
    end).

(** The load-state waits time out, everything else returns. *)
Definition slow_load : env :=
  fixed_env (fun c =>
    match c with
    | WaitForLoadState _ _ (Some t) => Reply (Some ApiTimeoutError) t false
    | _ => Reply None (typical_duration c) true
    end).

(** The calls made between the end of the session set-up and the
    [finally] block ([expect(...).to_be_visible] is not one of them: the
    evaluation of [expect] raises before the call). *)
Definition body_call (c : call) : bool :=
  match c with
  | Goto _ Commit (Some t) => t =? 10000
  | WaitForLoadState _ DomContentLoaded (Some t) => t =? 3000
  | WaitForTimeout ms => ms =? 3000
  | Fill _ _ None => true
  | Click _ (Some t) => t =? 5000
  | WaitForVisible _ (Some t) => t =? 5000
  | IsVisible _ => true
  | Sleep s => s =? 5
  | _ => false
  end.

(** The statements of the [try] block after [setup]. *)
Definition after_setup (sc : scenario) : M unit :=
  run_actions (actions_of sc) ;; assertion_of sc ;; sleep 5.

(** The session default is in force. *)
Definition default_set (s : state) : Prop :=
  default_in_force (trace s) = Some session_default.

Definition any_state : state -> Prop := fun _ => True.

(** The variables read by the [finally] block tell which resources are
    held, and a page is held only with its context. *)
Definition session_inv (s : state) : Prop :=
  context s = held_after (trace s) Context /\
  browser s = held_after (trace s) Browser /\
  pw s = held_after (trace s) Driver /\
  (held_after (trace s) Page = true -> context s = true).

Definition with_context (s : state) : Prop :=
  session_inv s /\ context s = true.

Definition not_release (e : entry) : Prop := is_release (what e) = false.

(** The release calls due for the resources held, in the order of the
    [finally] block. *)
Definition due_releases (held : resource -> bool) : list call :=
  filter (fun c => held (closed_by c)) [CloseContext; CloseBrowser; StopPlaywright].

(** The release calls of a log come after everything else and are an
    initial segment, without repetition, of the calls due for what was
    acquired, in the order of the [finally] block. *)
Definition release_attempted (t : list entry) : Prop :=
  exists body rel,
    t = (body ++ rel)%list /\
    Forall not_release body /\
    is_prefix (map what rel) (due_releases (held_after body)) /\
    NoDup (map what rel).

(** The log of a run ends with the release calls due for what the run
    acquired, each made once and in order, and nothing stays allocated. *)
Definition released_in_order (t : list entry) : Prop :=
  exists body rel,
    t = (body ++ rel)%list /\
    Forall not_release body /\
    map what rel = due_releases (held_after body) /\
    Forall (fun e => returned e = true) rel /\
    NoDup (map what rel) /\
    allocated t = [].

(** Every suspension point of a log has a bounded timeout, and when the
    calls keep to their budgets the time spent waiting is bounded. *)
Definition bounded_run (t : list entry) : Prop :=
  Forall bounded_wait t /\
  (Forall on_time t ->
   0 <= elapsed (waits t) <= 10000 * Z.of_nat (List.length (waits t))).


(** ** Triples

    [triple P Pre m Q X]: from a state in [Pre], [m] appends to the log
    only entries in [P], and ends in [Q] when it returns, in [X] when it
    raises. *)

Definition extends (P : entry -> Prop) (s s' : state) : Prop :=
  exists t, trace s' = (trace s ++ t)%list /\ Forall P t.

Definition triple {A} (P : entry -> Prop) (Pre : state -> Prop) (m : M A)
    (Q : state -> Prop) (X : exn -> state -> Prop) : Prop :=
  forall E s s' r, Pre s -> m E s = (s', r) ->
    extends P s s' /\
    match r with
    | Ok _ => Q s'
    | Raise e => X e s'
    end.

(** The scenarios whose assertion block applies [expect]. *)
Definition uses_expect (sc : scenario) : bool :=
  match sc with
  | tc007 => false
  | _ => true
  end.

(** The exceptions a run of a coroutine can end with: one raised inside a
    library call, the [IndexError] of [context.pages[-1]], the [NameError]
    of [expect] in the scenarios that apply it, and the [AssertionError]
    of the [assert] statement of TC007. *)
Definition allowed_exn (sc : scenario) (e : exn) : Prop :=
  match e with
  | Api _ => True
  | IndexError => True
  | NameError n => n = "expect" /\ uses_expect sc = true
  | AssertionError m => sc = tc007 /\ m = TC007.message
  | SyntaxError _ => False
  end.

(** The outcomes of a run of a coroutine. *)
Definition allowed_outcome (sc : scenario) (r : result unit) : Prop :=
  match r with
  | Ok _ => uses_expect sc = false
  | Raise e => allowed_exn sc e
  end.

Definition api_only (e : exn) : Prop :=
  match e with
  | Api _ => True
  | _ => False
  end.

(** What holds of the calls and of the state in the [try] block. *)
Definition body_entry (e : entry) : Prop := scripted e /\ not_release e.

Definition body_inv (s : state) : Prop := session_inv s /\ default_set s.

(** [context.close()] raises, every other call returns. *)
Definition close_context_fails : env :=
  fixed_env (fun c =>
    match c with
    | CloseContext => Reply (Some ApiError) 100 false
    | _ => Reply None (typical_duration c) true
    end).

(** Every call returns; the calls written without a timeout take an hour
    each, the others keep to their timeouts. *)
Definition slow_session : env :=
  fixed_env (fun c =>
    Reply None (if untimed c then 3600000 else typical_duration c) true).

(** Every release call of a log returned. *)
Definition releases_returned (t : list entry) : Prop :=
  Forall (fun e => is_release (what e) = true -> returned e = true) t.

(** A run that ends neither by the assertion passing nor by the authored
    [AssertionError], and in which [expect(...).to_be_visible] was never
    called. *)
Definition never_asserts (x : state * result unit) : Prop :=
  snd x <> Ok tt /\
  (forall m, snd x <> Raise (AssertionError m)) /\
  Forall (fun e => match what e with
                   | ExpectVisible _ _ => False
                   | _ => True
                   end) (trace (fst x)).

(** The text of TC003 with lines 336 and 341 taken out. *)
Definition TC003_without_fences : list string :=
  (firstn 335 TC003.source ++ firstn 4 (skipn 336 TC003.source)
   ++ skipn 341 TC003.source)%list.

(** The entries a statement appended to the log. *)
Definition new_entries (s s' : state) : list entry :=
  skipn (List.length (trace s)) (trace s').

(** The actions are one fixed sequence: the log of [run_actions l] is an
    initial segment of the calls of [l], all of them when it returns. *)
Definition linear (l : list action) (s : state) (x : state * result unit) : Prop :=
  exists t,
    trace (fst x) = (trace s ++ t)%list /\
    is_prefix (map what t) (flat_map script_calls l) /\
    match snd x with
    | Ok _ => map what t = flat_map script_calls l /\
              Forall (fun e => returned e = true) t
    | Raise _ => True
    end.

Definition is_operation (e : entry) : bool :=
  match what e with
  | Fill _ _ _ | Click _ _ => true
  | _ => false
  end.

(** The calls of an interactive step and its result.  A step that
    returns has logged exactly a pause of 3000 ms and then the one library
    call [op], and both returned.  A step that raises has logged nothing
    ([context.pages[-1]] raised [IndexError]), or the pause alone, which
    raised, or the pause, which returned, and [op], which raised. *)
Definition step_calls (op : call) (t : list entry) (r : result unit) : Prop :=
  match r with
  | Ok _ =>
      exists p o,
        t = [p; o] /\
        what p = WaitForTimeout 3000 /\ returned p = true /\
        what o = op /\ returned o = true
  | Raise x =>
      (t = [] /\ x = IndexError) \/
      (exists p a,
         t = [p] /\
         what p = WaitForTimeout 3000 /\ raises (answer p) = Some a /\
         x = Api a) \/
      (exists p o a,
         t = [p; o] /\
         what p = WaitForTimeout 3000 /\ returned p = true /\
         what o = op /\ raises (answer o) = Some a /\
         x = Api a)
  end.

(** The budgets of an interactive step: 3000 ms for the pause and one
    budget of 5000 ms for the call that resolves the locator and operates;
    when the calls keep to their budgets the operation takes at most
    5000 ms and the step at most 8000 ms. *)
Definition step_budgets (t : list entry) : Prop :=
  Forall (fun e => if is_operation e then budget e = Some 5000
                   else budget e = Some 3000) t /\
  (Forall on_time t ->
   elapsed (filter is_operation t) <= 5000 /\ elapsed t <= 3000 + 5000).

(** An interactive step with the library call [op], read on the entries
    [t] it appended to the log and on its result [r]. *)
Definition interactive_step (op : call) (t : list entry) (r : result unit) : Prop :=
  step_calls op t r /\ step_budgets t.

(** What an interactive step does to the state [s]: it appends its
    entries to the log, and they and its result are those of an
    interactive step. *)
Definition runs_interactive_step (op : call) (s : state) (x : state * result unit) : Prop :=
  trace (fst x) = (trace s ++ new_entries s (fst x))%list /\
  interactive_step op (new_entries s (fst x)) (snd x).

(** The state in which the actions start when every call of [setup]
    returned. *)
Definition after_setup_state : state := fst (setup all_return initial).

(** ** The call sequence of a coroutine *)

Definition is_load_state_wait (c : call) : bool :=
  match c with
  | WaitForLoadState _ _ _ => true
  | _ => false
  end.

(** An entry after which the script goes on: the call returned, or it is
    a load-state wait that raised an exception of the class [Error], which
    its [except] clause catches. *)
Definition passed (e : entry) : bool :=
  match raises (answer e) with
  | None => true
  | Some x => is_load_state_wait (what e) && isinstance (Api x) cls_async_api_Error
  end.

(** Every entry but the last one passed. *)
Fixpoint passed_until_last (t : list entry) : bool :=
  match t with
  | [] => true
  | e :: t' =>
      match t' with
      | [] => true
      | _ :: _ => passed e && passed_until_last t'
      end
  end.

Definition load_state_call (r : receiver) : call :=
  WaitForLoadState r DomContentLoaded (Some 3000).

(** The waits of the loop over [page.frames], from frame [i], for [n]
    frames. *)
Definition frame_waits (i n : nat) : list call :=
  map (fun j => load_state_call (OnFrame j)) (seq i n).

(** The calls that open the session (lines 11 to 29). *)
Definition session_calls : list call :=
  [StartPlaywright; LaunchChromium; NewContext; SetDefaultTimeout 5000; NewPage].

(** The calls of [setup] when the page has [n] frames. *)
Definition setup_calls (n : nat) : list call :=
  (session_calls
   ++ [Goto root_url Commit (Some 10000); load_state_call OnPage]
   ++ frame_waits 0 n)%list.

(** The library calls of the assertion block: none in the scenarios that
    apply [expect]. *)
Definition assertion_calls (sc : scenario) : list call :=
  match sc with
  | tc007 => [WaitForVisible ("text=" ++ TC007.expected) (Some 5000);
              IsVisible ("text=" ++ TC007.expected)]
  | _ => []
  end.

(** The calls of the [try] block of a scenario, in the order of its
    statements, when the page has [n] frames. *)
Definition try_calls (sc : scenario) (n : nat) : list call :=
  (setup_calls n ++ flat_map script_calls (actions_of sc)
   ++ assertion_calls sc ++ [Sleep 5])%list.

(** A statement makes the calls of [L], in order: all of them, each one
    passed, when it returns; an initial segment of them, each one but the
    last passed, when it raises. *)
Definition follows {A} (L : list call) (s : state) (x : state * result A) : Prop :=
  exists t,
    trace (fst x) = (trace s ++ t)%list /\
    match snd x with
    | Ok _ => map what t = L /\ forallb passed t = true
    | Raise _ => is_prefix (map what t) L /\ passed_until_last t = true
    end.

(** The log of a run of a coroutine: an initial segment of the calls of
    its [try] block, the whole of it when the run returned, then release
    calls. *)
Definition straight_line (sc : scenario) (x : state * result unit) : Prop :=
  exists n body rel,
    trace (fst x) = (body ++ rel)%list /\
    is_prefix (map what body) (try_calls sc n) /\
    passed_until_last body = true /\
    forallb (fun e => is_release (what e)) rel = true /\
    match snd x with
    | Ok _ => map what body = try_calls sc n
    | Raise _ => True
    end.

(** Every fill and click of a log comes just after a pause of 3000 ms that
    returned; [prev] tells whether the log is read after such a pause. *)
Definition is_pause (e : entry) : bool :=
  match what e with
  | WaitForTimeout ms => (ms =? 3000) && returned e
  | _ => false
  end.

Fixpoint paused_before_operations (prev : bool) (t : list entry) : bool :=
  match t with
  | [] => true
  | e :: t' =>
      (if is_operation e then prev else true)
      && paused_before_operations (is_pause e) t'
  end.

(** The same on a sequence of calls. *)
Definition is_operation_call (c : call) : bool :=
  match c with
  | Fill _ _ _ | Click _ _ => true
  | _ => false
  end.

Definition is_pause_call (c : call) : bool :=
  match c with
  | WaitForTimeout ms => ms =? 3000
  | _ => false
  end.

Fixpoint pauses_written (prev : bool) (l : list call) : bool :=
  match l with
  | [] => true
  | c :: l' =>
      (if is_operation_call c then prev else true)
      && pauses_written (is_pause_call c) l'
  end.

(** What a call may send to the browser: a navigation goes to the
    application on [localhost:3000], a fill types one of the two test
    credentials. *)
Definition stays_local (c : call) : bool :=
  match c with
  | Goto url _ _ => String.prefix root_url url
  | Fill _ text _ =>
      String.eqb text "example@gmail.com" || String.eqb text "password123"
  | _ => true
  end.

(** The browser in which nothing breaks: every call other than a
    load-state wait returns, a load-state wait returns or raises an
    exception of the class [Error], and the context always has a page. *)
Definition cooperative (E : env) : Prop :=
  (forall h c, is_load_state_wait c = false -> raises (respond E h c) = None) /\
  (forall h c x, raises (respond E h c) = Some x ->
                 isinstance (Api x) cls_async_api_Error = true) /\
  (forall h, open_pages E h <> 0%nat).

(** The outcome of each file in a cooperative browser, [visible] being
    what [is_visible] answers. *)
Definition cooperative_outcome (sc : scenario) (visible : bool) : result unit :=
  match sc with
  | tc003 => Raise (SyntaxError 336)
  | tc007 => if visible then Ok tt else Raise (AssertionError TC007.message)
  | _ => Raise (NameError "expect")
  end.

(** The outcomes of the four files. *)
Definition outcome_of_file (sc : scenario) (r : result unit) : Prop :=
  match r with
  | Ok _ => sc = tc007
  | Raise (Api _) => sc <> tc003
  | Raise IndexError => sc <> tc003
  | Raise (NameError n) => n = "expect" /\ (sc = tc001 \/ sc = tc008)
  | Raise (AssertionError m) => sc = tc007 /\ m = TC007.message
  | Raise (SyntaxError l) => sc = tc003 /\ l = 336%nat
  end.

(** The calls that open the session, and the calls made on the page. *)
Definition is_session_call (c : call) : bool :=
  match c with
  | StartPlaywright | LaunchChromium | NewContext
  | SetDefaultTimeout _ | NewPage => true
  | _ => false
  end.

Definition is_page_call (c : call) : bool :=
  negb (is_session_call c) && negb (is_release c).

(** The log of TC007 shows the element reported present, then hidden:
    [elem.wait_for(state="visible")] returned and the [is_visible] that
    follows it returned false, after which only [rest] was logged. *)
Definition reported_hidden (t rest : list entry) : Prop :=
  exists pre wf iv,
    t = (pre ++ wf :: iv :: rest)%list /\
    what wf = WaitForVisible ("text=" ++ TC007.expected) (Some 5000) /\
    returned wf = true /\
    what iv = IsVisible ("text=" ++ TC007.expected) /\
    returned iv = true /\
    truth (answer iv) = false.

(** The exception a statement of TC007 ends with: an [AssertionError] of
    the script only with the log ending as above. *)
Definition assertion_only_when_hidden (e : exn) (s : state) : Prop :=
  match e with
  | AssertionError _ => reported_hidden (trace s) []
  | _ => True
  end.

(** ** The calls of a run and their timeouts *)

(** A number of frames that [page.frames] reports in the environment;
    0 stands for a run that ends before the loop over the frames. *)
Definition frames_reported (E : env) (n : nat) : Prop :=
  n = 0%nat \/ exists h, n = page_frames E h.

(** An untimed call ran without a timeout. *)
Definition untimed_without_budget (e : entry) : Prop :=
  untimed (what e) = true -> budget e = None.

(** What the code gives a run.  Each untimed call has no timeout and each
    other suspension point a bounded one, written at the call or the
    session default.  The time spent in the suspension points is the time
    spent under a timeout plus the time spent in the untimed calls.  The
    log has at most as many calls as the [try] block has, for a number of
    frames the page reported, and three release calls.  When every call
    keeps to its budget, the time spent under a timeout is at most
    10000 ms for each timed call. *)
Definition timed_run (sc : scenario) (E : env) (t : list entry) : Prop :=
  Forall timed_or_untimed t /\
  elapsed (waits t) = elapsed (timed_waits t) + elapsed (untimed_awaits t) /\
  (exists n,
     frames_reported E n /\
     (List.length t <= List.length (try_calls sc n) + 3)%nat /\
     (List.length (timed_waits t) <= List.length (try_calls sc n))%nat) /\
  (Forall on_time t ->
   0 <= elapsed (timed_waits t)
     <= 10000 * Z.of_nat (List.length (timed_waits t))).

(** * Properties *)

Section Logic.

Variable P : entry -> Prop.

Lemma extends_refl s : extends P s s.
Proof. exists []. split; [now rewrite app_nil_r | constructor]. Qed.

Lemma extends_trans s1 s2 s3 :
  extends P s1 s2 -> extends P s2 s3 -> extends P s1 s3.
Proof.
  intros (t1 & H1 & F1) (t2 & H2 & F2).
  exists (t1 ++ t2)%list. split.
  - now rewrite H2, H1, app_assoc.
  - apply Forall_app; split; assumption.
Qed.

Lemma extends_log s e : P e -> extends P s (log s e).
Proof. intros H. exists [e]. split; [reflexivity | now constructor]. Qed.

Lemma triple_ret {A} (a : A) Pre Q X :
  (forall s, Pre s -> Q s) ->
  triple P Pre (ret a) Q X.
Proof.
  intros HQ E s s' r Hs H. inversion H; subst.
  split; [apply extends_refl | auto].
Qed.

Lemma triple_raise {A} (e : exn) Pre Q X :
  (forall s, Pre s -> X e s) ->
  triple P Pre (@raise A e) Q X.
Proof.
  intros HX E s s' r Hs H. inversion H; subst.
  split; [apply extends_refl | auto].
Qed.

Lemma triple_bind {A B} (m : M A) (k : A -> M B) Pre Mid Q X :
  triple P Pre m Mid X ->
  (forall a, triple P Mid (k a) Q X) ->
  triple P Pre (bind m k) Q X.
Proof.
  intros Hm Hk E s s' r Hs H. unfold bind in H.
  destruct (m E s) as [s1 [a | e]] eqn:Em.
  - destruct (Hm E s s1 (Ok a) Hs Em) as [X1 Q1].
    destruct (Hk a E s1 s' r Q1 H) as [X2 Q2].
    split; [eapply extends_trans; eassumption | assumption].
  - inversion H; subst. exact (Hm E s s' (Raise e) Hs Em).
Qed.

Lemma triple_weaken {A} (m : M A) Pre Pre' Q Q' (X X' : exn -> state -> Prop) :
  triple P Pre' m Q' X' ->
  (forall s, Pre s -> Pre' s) ->
  (forall s, Q' s -> Q s) ->
  (forall e s, X' e s -> X e s) ->
  triple P Pre m Q X.
Proof.
  intros Hm H1 H2 H3 E s s' r Hs H.
  destruct (Hm E s s' r (H1 s Hs) H) as [Hx Hr].
  split; [assumption |]. destruct r; auto.
Qed.

Lemma triple_api (c : call) Pre Q X :
  (forall E s, Pre s ->
     let e := entry_of E (trace s) c in
     P e /\
     match raises (answer e) with
     | None => Q (log s e)
     | Some x => X (Api x) (log s e)
     end) ->
  triple P Pre (api c) Q X.
Proof.
  intros Hc E s s' r Hs H. unfold api in H.
  destruct (Hc E s Hs) as [He Hr]. unfold entry_of in Hr. simpl in Hr.
  destruct (raises (respond E (trace s) c)) eqn:Er; inversion H; subst;
    (split; [now apply extends_log | assumption]).
Qed.

Lemma triple_api_ (c : call) Pre Q X :
  (forall E s, Pre s ->
     let e := entry_of E (trace s) c in
     P e /\
     match raises (answer e) with
     | None => Q (log s e)
     | Some x => X (Api x) (log s e)
     end) ->
  triple P Pre (api_ c) Q X.
Proof.
  intros Hc. unfold api_.
  eapply triple_bind; [apply triple_api; exact Hc | intros; now apply triple_ret].
Qed.

Lemma triple_name (n : string) Pre Q X :
  (forall s, Pre s -> Q s) ->
  (bound n = false -> forall s, Pre s -> X (NameError n) s) ->
  triple P Pre (name n) Q X.
Proof.
  intros HQ HX. unfold name. destruct (bound n).
  - now apply triple_ret.
  - apply triple_raise. now apply HX.
Qed.

Lemma triple_pages_last Pre Q X :
  (forall s, Pre s -> Q s) ->
  (forall s, Pre s -> X IndexError s) ->
  triple P Pre pages_last Q X.
Proof.
  intros HQ HX E s s' r Hs H. unfold pages_last in H.
  destruct (Nat.eqb _ _); inversion H; subst;
    (split; [apply extends_refl | auto]).
Qed.

Lemma triple_try_except {A} (body handler : M A) (cls : exc_class)
    Pre Q X (Xb : exn -> state -> Prop) :
  triple P Pre body Q Xb ->
  (forall e, isinstance e cls = true -> triple P (Xb e) handler Q X) ->
  (forall e s, isinstance e cls = false -> Xb e s -> X e s) ->
  triple P Pre (try_except body cls handler) Q X.
Proof.
  intros Hb Hh HX E s s' r Hs H. unfold try_except in H.
  destruct (body E s) as [s1 [a | e]] eqn:Eb.
  - inversion H; subst. exact (Hb E s s' (Ok a) Hs Eb).
  - destruct (Hb E s s1 (Raise e) Hs Eb) as [X1 Q1].
    destruct (isinstance e cls) eqn:Ei.
    + destruct (Hh e Ei E s1 s' r Q1 H) as [X2 Q2].
      split; [eapply extends_trans; eassumption | assumption].
    + inversion H; subst. split; [assumption | auto].
Qed.

Lemma triple_try_finally {A} (body : M A) (fin : M unit)
    Pre Mid Qb Qf Q (Xb Xf X : exn -> state -> Prop) :
  triple P Pre body Qb Xb ->
  (forall s, Qb s -> Mid s) ->
  (forall e s, Xb e s -> Mid s) ->
  triple P Mid fin Qf Xf ->
  (forall s1 s2, Qb s1 -> Qf s2 -> Q s2) ->
  (forall e s1 s2, Xb e s1 -> Qf s2 -> X e s2) ->
  (forall e s, Xf e s -> X e s) ->
  triple P Pre (try_finally body fin) Q X.
Proof.
  intros Hb HM1 HM2 Hf HQ HX1 HX2 E s s' r Hs Hr. unfold try_finally in Hr.
  destruct (body E s) as [s1 r1] eqn:Eb.
  destruct (fin E s1) as [s2 r2] eqn:Ef.
  destruct (Hb E s s1 r1 Hs Eb) as [X1 M1].
  assert (Mid s1) as HM by (destruct r1; eauto).
  destruct (Hf E s1 s2 r2 HM Ef) as [X2 Q2].
  assert (extends P s s2) as HE by (eapply extends_trans; eassumption).
  destruct r2 as [u | e]; inversion Hr; subst; clear Hr.
  - split; [assumption | destruct r; eauto].
  - split; [assumption | auto].
Qed.

Lemma triple_when (v : state -> bool) (m : M unit) Pre Q X :
  triple P (fun s => Pre s /\ v s = true) m Q X ->
  (forall s, Pre s -> v s = false -> Q s) ->
  triple P Pre (when v m) Q X.
Proof.
  intros Hm Hq E s s' r Hs Hr. unfold when in Hr.
  destruct (v s) eqn:Ev.
  - apply (Hm E s s' r); auto.
  - inversion Hr; subst. split; [apply extends_refl | auto].
Qed.

Lemma triple_for_range (body : nat -> M unit) I X :
  (forall i, triple P I (body i) I X) ->
  forall n i, triple P I (for_range i n body) I X.
Proof.
  intros Hb. induction n as [| n IH]; intros i; simpl.
  - now apply triple_ret.
  - eapply triple_bind; [apply Hb | intros _; apply IH].
Qed.

Lemma triple_run_actions I X (l : list action) :
  (forall a, In a l -> triple P I (exec a) I X) ->
  triple P I (run_actions l) I X.
Proof.
  induction l as [| a l IH]; intros Ha; simpl.
  - now apply triple_ret.
  - eapply triple_bind; [apply Ha; now left | intros _; apply IH].
    intros b Hb. apply Ha. now right.
Qed.

Lemma triple_set_default_timeout ms Pre Q X :
  (forall s, Pre s ->
     let e := Entry (SetDefaultTimeout ms) None (Reply None 0 true) in
     P e /\ Q (log s e)) ->
  triple P Pre (set_default_timeout ms) Q X.
Proof.
  intros H E s s' r Hs Hr. unfold set_default_timeout in Hr.
  inversion Hr; subst. destruct (H s Hs) as [H1 H2].
  split; [now apply extends_log | assumption].
Qed.

Lemma triple_entries {A} (P' : entry -> Prop) (m : M A) Pre Q X :
  (forall e, P e -> P' e) ->
  triple P Pre m Q X ->
  triple P' Pre m Q X.
Proof.
  intros HP Hm E s s' r Hs H.
  destruct (Hm E s s' r Hs H) as [(t & Ht & Ft) Hr].
  split; [| assumption].
  exists t. split; [assumption |]. eapply Forall_impl; eassumption.
Qed.

(** [v = await c], for an assignment [set_v] that only binds [v]. *)
Lemma triple_assign c (set_v : M unit) Pre Q X :
  (forall E s, exists s1, set_v E s = (s1, Ok tt) /\ trace s1 = trace s) ->
  (forall E s, Pre s ->
     let e := entry_of E (trace s) c in
     P e /\
     match raises (answer e) with
     | None => forall s1, set_v E (log s e) = (s1, Ok tt) -> Q s1
     | Some x => X (Api x) (log s e)
     end) ->
  triple P Pre (assign c set_v) Q X.
Proof.
  intros Hset H E s s' r Hs Hr.
  unfold assign, api_, api, bind in Hr.
  destruct (H E s Hs) as [H1 H2]. unfold entry_of in H2. simpl in H2.
  destruct (raises (respond E (trace s) c)) eqn:Er.
  - inversion Hr; subst. split; [now apply extends_log | assumption].
  - unfold ret in Hr.
    destruct (Hset E (log s (entry_of E (trace s) c))) as (s1 & E1 & T1).
    rewrite E1 in Hr. inversion Hr; subst. split.
    + exists [entry_of E (trace s) c]. split; [now rewrite T1 | now constructor].
    + now apply H2.
Qed.

End Logic.

(** ** Invariants of the statements after the session set-up

    An invariant [I] kept by every call of the body, returning or raising,
    is kept by every statement of the body; [allowed] holds of the
    exception a statement ends with. *)

Section Body.

Variable P : entry -> Prop.
Variable I : state -> Prop.
Variable allowed : exn -> Prop.

Let X : exn -> state -> Prop := fun e s => I s /\ allowed e.

Hypothesis body_api :
  forall c, body_call c = true ->
  forall E s, I s ->
    P (entry_of E (trace s) c) /\ I (log s (entry_of E (trace s) c)).
Hypothesis allowed_api : forall x, allowed (Api x).
Hypothesis allowed_index : allowed IndexError.

Lemma body_api_reply c : body_call c = true -> triple P I (api c) I X.
Proof.
  intros Hc. apply triple_api. intros E s Hs e.
  destruct (body_api c Hc E s Hs) as [H1 H2].
  split; [assumption |].
  destruct (raises (answer e)); [split |]; auto.
Qed.

Lemma body_api_ c : body_call c = true -> triple P I (api_ c) I X.
Proof.
  intros Hc. unfold api_.
  eapply triple_bind; [now apply body_api_reply | intros; now apply triple_ret].
Qed.

Lemma body_goto url : triple P I (goto url) I X.
Proof. now apply body_api_. Qed.

Lemma body_wait_for_load_state r : triple P I (wait_for_load_state r) I X.
Proof.
  unfold wait_for_load_state.
  eapply triple_try_except; [now apply body_api_ | | auto].
  intros e _. apply triple_ret. now intros s [Hs _].
Qed.

Lemma body_wait_for_frames : triple P I wait_for_frames I X.
Proof.
  intros E s s' r Hs H. unfold wait_for_frames in H.
  eapply triple_for_range; [| eassumption | eassumption].
  intros i. apply body_wait_for_load_state.
Qed.

Lemma body_first_navigation : triple P I first_navigation I X.
Proof.
  unfold first_navigation.
  eapply triple_bind; [apply body_goto | intros _].
  eapply triple_bind; [apply body_wait_for_load_state | intros _].
  apply body_wait_for_frames.
Qed.

Lemma body_pages_last : triple P I pages_last I X.
Proof. apply triple_pages_last; [auto | now split]. Qed.

Lemma body_fill_step xpath text : triple P I (fill_step xpath text) I X.
Proof.
  unfold fill_step.
  eapply triple_bind; [apply body_pages_last | intros _].
  eapply triple_bind; [now apply body_api_ | intros _].
  now apply body_api_.
Qed.

Lemma body_click_step xpath : triple P I (click_step xpath) I X.
Proof.
  unfold click_step.
  eapply triple_bind; [apply body_pages_last | intros _].
  eapply triple_bind; [now apply body_api_ | intros _].
  now apply body_api_.
Qed.

Lemma body_exec a : triple P I (exec a) I X.
Proof.
  destruct a; simpl;
    [apply body_goto | apply body_fill_step | apply body_click_step].
Qed.

Lemma body_run_actions l : triple P I (run_actions l) I X.
Proof. apply triple_run_actions. intros a _. apply body_exec. Qed.

Lemma body_sleep : triple P I (sleep 5) I X.
Proof.
  unfold sleep.
  apply (triple_bind P _ _ I I);
    [apply triple_name; [auto | discriminate] | intros _].
  now apply body_api_.
Qed.

(** The [try ... except AssertionError] around [expect] never returns. *)
Lemma body_expect_visible text message :
  allowed (NameError "expect") ->
  triple P I (expect_visible text message) (fun _ => False) X.
Proof.
  intros Hn. unfold expect_visible.
  eapply triple_bind; [apply body_pages_last | intros _].
  intros E s s' r Hs H.
  change (try_expect text message E s) with (s, @Raise unit (NameError "expect")) in H.
  inversion H; subst. split; [apply extends_refl | now split].
Qed.

Lemma body_TC007_assertion :
  allowed (AssertionError TC007.message) ->
  triple P I TC007.assertion I X.
Proof.
  intros Ha. unfold TC007.assertion.
  eapply triple_bind; [apply body_pages_last | intros _].
  eapply triple_bind; [apply body_pages_last | intros _].
  eapply triple_bind; [now apply body_api_ | intros _].
  eapply triple_bind; [now apply body_api_reply | intros r].
  destruct (truth r); [now apply triple_ret | apply triple_raise; now split].
Qed.

(** The statements after [setup]: in the scenarios that apply [expect],
    they never run to their end. *)
Lemma body_after_setup sc :
  (uses_expect sc = true -> allowed (NameError "expect")) ->
  (sc = tc007 -> allowed (AssertionError TC007.message)) ->
  triple P I (after_setup sc) (fun s => I s /\ uses_expect sc = false) X.
Proof.
  intros Hn Ha. unfold after_setup.
  eapply triple_bind; [apply body_run_actions | intros _].
  destruct sc; simpl.
  - eapply triple_bind; [apply body_expect_visible; now apply Hn | intros _].
    intros E s s' r [].
  - eapply triple_bind; [apply body_expect_visible; now apply Hn | intros _].
    intros E s s' r [].
  - eapply triple_bind; [apply body_TC007_assertion; now apply Ha | intros _].
    eapply triple_weaken; [apply body_sleep | | |]; auto.
  - eapply triple_bind; [apply body_expect_visible; now apply Hn | intros _].
    intros E s s' r [].
Qed.

End Body.

(** ** The [try] block *)

Lemma default_from_snoc d h e :
  default_from d (h ++ [e]) =
  match what e with
  | SetDefaultTimeout ms => Some ms
  | _ => default_from d h
  end.
Proof.
  revert d. induction h as [| x h IH]; intros d; simpl.
  - destruct (what e); reflexivity.
  - apply IH.
Qed.

Lemma default_in_force_log s e :
  default_in_force (trace (log s e)) =
  match what e with
  | SetDefaultTimeout ms => Some ms
  | _ => default_in_force (trace s)
  end.
Proof. apply default_from_snoc. Qed.

Lemma scripted_body_call c :
  body_call c = true ->
  forall E s, default_set s ->
    scripted (entry_of E (trace s) c) /\
    default_set (log s (entry_of E (trace s) c)).
Proof.
  intros Hc E s Hs. unfold default_set in *.
  rewrite default_in_force_log. unfold scripted, entry_of. simpl.
  destruct c; simpl in Hc; try discriminate; simpl;
    repeat match goal with
           | t : option Z |- _ => destruct t; simpl in Hc; try discriminate
           | w : wait_until |- _ => destruct w; simpl in Hc; try discriminate
           | H : (_ =? _) = true |- _ => apply Z.eqb_eq in H; subst
           end;
    simpl; rewrite ?Hs; auto.
Qed.

Lemma held_after_app t1 t2 r :
  held_after (t1 ++ t2) r = fold_left step_held t2 (held_after t1) r.
Proof. unfold held_after. now rewrite fold_left_app. Qed.

Lemma held_after_log s e r :
  held_after (trace (log s e)) r = step_held (held_after (trace s)) e r.
Proof. simpl. now rewrite held_after_app. Qed.

Lemma step_held_neutral h e r :
  acquires r (what e) = false -> releases r (what e) = false ->
  step_held h e r = h r.
Proof.
  intros Ha Hr. unfold step_held. rewrite Ha, Hr.
  destruct (returned e); [| reflexivity].
  now rewrite orb_false_r, andb_true_r.
Qed.

Lemma body_call_neutral c r :
  body_call c = true -> acquires r c = false /\ releases r c = false.
Proof. destruct c, r; simpl; intros H; try discriminate; auto. Qed.

Lemma session_inv_neutral s e :
  (forall r, acquires r (what e) = false /\ releases r (what e) = false) ->
  session_inv s -> session_inv (log s e).
Proof.
  intros Hn (Hc & Hb & Hp & Hg). unfold session_inv.
  rewrite !held_after_log.
  rewrite !step_held_neutral by apply Hn.
  simpl. auto.
Qed.

Lemma session_inv_raised s e :
  returned e = false -> session_inv s -> session_inv (log s e).
Proof.
  intros He (Hc & Hb & Hp & Hg). unfold session_inv.
  rewrite !held_after_log. unfold step_held. rewrite He. simpl. auto.
Qed.

Lemma raised_not_returned e x : raises (answer e) = Some x -> returned e = false.
Proof. unfold returned. now intros ->. Qed.

Lemma body_inv_body_call c :
  body_call c = true ->
  forall E s, body_inv s ->
    body_entry (entry_of E (trace s) c) /\
    body_inv (log s (entry_of E (trace s) c)).
Proof.
  intros Hc E s [Hs Hd].
  destruct (scripted_body_call c Hc E s Hd) as [H1 H2].
  split; split; try assumption.
  - unfold not_release. simpl. destruct c; simpl in *; try discriminate; reflexivity.
  - apply session_inv_neutral; [| assumption].
    intros r. simpl. now apply body_call_neutral.
Qed.

Lemma set_pw_total E s : exists s1, set_pw E s = (s1, Ok tt) /\ trace s1 = trace s.
Proof. eexists; split; reflexivity. Qed.

Lemma set_browser_total E s :
  exists s1, set_browser E s = (s1, Ok tt) /\ trace s1 = trace s.
Proof. eexists; split; reflexivity. Qed.

Lemma set_context_total E s :
  exists s1, set_context E s = (s1, Ok tt) /\ trace s1 = trace s.
Proof. eexists; split; reflexivity. Qed.

Section TryBlock.

Variable sc : scenario.

Let X : exn -> state -> Prop := fun e s => session_inv s /\ allowed_exn sc e.

(** An acquisition [v = await c]: the variable is bound exactly when the
    resource is held. *)
Ltac acquisition :=
  let E := fresh "E" in let s := fresh "s" in let Hs := fresh "Hs" in
  let e := fresh "e" in let Er := fresh "Er" in
  intros E s Hs e; split; [split; [exact I | reflexivity] |];
  destruct (raises (answer e)) eqn:Er;
  [ split; [eapply session_inv_raised; [eapply raised_not_returned|]; eassumption
           | exact I]
  | let s1 := fresh "s1" in let H1 := fresh "H1" in
    intros s1 H1; inversion H1; subst; clear H1;
    destruct Hs as (Hc & Hb & Hp & Hg);
    unfold with_context, session_inv; simpl;
    rewrite !held_after_app; simpl; unfold step_held, returned;
    rewrite Er; simpl;
    rewrite ?orb_false_r, ?andb_true_r, ?orb_true_r; auto ].

Lemma setup_spec : triple body_entry session_inv setup body_inv X.
Proof.
  unfold setup.
  apply (triple_bind _ _ _ session_inv session_inv);
    [apply triple_name; [auto | discriminate] | intros _].
  apply (triple_bind _ _ _ session_inv session_inv);
    [apply triple_assign; [apply set_pw_total | acquisition] | intros _].
  apply (triple_bind _ _ _ session_inv session_inv);
    [apply triple_assign; [apply set_browser_total | acquisition] | intros _].
  apply (triple_bind _ _ _ session_inv with_context);
    [apply triple_assign; [apply set_context_total | acquisition] | intros _].
  apply (triple_bind _ _ _ with_context (fun s => with_context s /\ default_set s)).
  { apply triple_set_default_timeout.
    intros s [Hs Hc] e. split; [split; reflexivity |].
    split; [split; [| exact Hc] |].
    - apply session_inv_neutral; [| assumption]. intros r; destruct r; auto.
    - unfold default_set. now rewrite default_in_force_log. }
  intros _.
  apply (triple_bind _ _ _ (fun s => with_context s /\ default_set s) body_inv).
  { apply triple_api_. intros E s [[Hs Hctx] Hd] e.
    split; [split; [exact I | reflexivity] |].
    destruct (raises (answer e)) eqn:Er.
    - split; [| exact I].
      eapply session_inv_raised; [eapply raised_not_returned |]; eassumption.
    - split.
      + destruct Hs as (Hc & Hb & Hp & Hg). unfold session_inv. simpl.
        rewrite !held_after_app. simpl. unfold step_held, returned.
        rewrite Er. simpl. rewrite !orb_false_r, !andb_true_r. auto.
      + unfold default_set in *. now rewrite default_in_force_log. }
  intros _.
  eapply triple_weaken;
    [apply (body_first_navigation body_entry body_inv (allowed_exn sc));
     solve [apply body_inv_body_call | intros; exact I] | | |]; auto.
  intros e s [[Hs _] He]. now split.
Qed.

Lemma try_block_spec :
  triple body_entry session_inv (setup ;; after_setup sc)
         (fun s => body_inv s /\ uses_expect sc = false) X.
Proof.
  eapply triple_bind; [apply setup_spec | intros _].
  eapply triple_weaken;
    [apply (body_after_setup body_entry body_inv (allowed_exn sc));
     solve [apply body_inv_body_call | intros; exact I
           | intros H; simpl; auto ] | | |]; auto.
  intros e s [[Hs _] He]. now split.
Qed.

End TryBlock.

Lemma session_inv_initial : session_inv initial.
Proof. unfold session_inv. simpl. repeat split; auto; discriminate. Qed.

(** ** The [finally] block and the whole coroutine *)

Lemma close_spec (v : state -> bool) c :
  is_release c = true ->
  triple scripted any_state (when v (api_ c)) any_state (fun e _ => api_only e).
Proof.
  intros Hc.
  apply (triple_when _ _ _ any_state any_state); [| unfold any_state; auto].
  apply triple_api_. intros E s _ e. split.
  - destruct c; try discriminate; exact I.
  - destruct (raises (answer e)); exact I.
Qed.

Lemma teardown_spec :
  triple scripted any_state teardown any_state (fun e _ => api_only e).
Proof.
  unfold teardown.
  apply (triple_bind _ _ _ any_state any_state); [now apply close_spec | intros _].
  apply (triple_bind _ _ _ any_state any_state); [now apply close_spec | intros _].
  now apply close_spec.
Qed.

Lemma run_test_spec sc :
  triple scripted session_inv (run_test sc)
         (fun _ => uses_expect sc = false) (fun e _ => allowed_exn sc e).
Proof.
  change (run_test sc) with (try_finally (setup ;; after_setup sc) teardown).
  eapply (triple_try_finally scripted _ _ session_inv any_state);
    [ eapply triple_entries; [| apply try_block_spec]; now intros e [H _]
    | | | apply teardown_spec | | | ]; unfold any_state; simpl; auto.
  - now intros s1 s2 [_ H] _.
  - now intros e s1 s2 [_ H] _.
  - intros e s H. destruct e; simpl in *; auto; contradiction.
Qed.

(** Every call of every run of a coroutine has the shape that [scripted]
    lists, and the run ends in one of the outcomes of [allowed_outcome]. *)
Lemma run_test_outcome sc E :
  Forall scripted (trace (fst (run_test sc E initial))) /\
  allowed_outcome sc (snd (run_test sc E initial)).
Proof.
  destruct (run_test sc E initial) as [s' r] eqn:Er.
  destruct (run_test_spec sc E initial s' r session_inv_initial Er)
    as [(t & Ht & Ft) Hr].
  simpl in *. rewrite Ht. split; [exact Ft |].
  destruct r; exact Hr.
Qed.

Lemma run_test_scripted sc E :
  Forall scripted (trace (fst (run_test sc E initial))).
Proof. apply run_test_outcome. Qed.

Lemma TC003_lexical_error : Lexer.first_error TC003.source = Some 336%nat.
Proof. vm_compute. reflexivity. Qed.

Lemma TC003_main E s : TC003.main E s = (s, Raise (SyntaxError 336)).
Proof. unfold TC003.main, run_module. now rewrite TC003_lexical_error. Qed.


(** ** Release of the session *)

Lemma log_twice (t : list entry) a b : ((t ++ [a]) ++ [b] = t ++ [a; b])%list.
Proof. now rewrite <- app_assoc. Qed.

Lemma log_thrice (t : list entry) a b c :
  (((t ++ [a]) ++ [b]) ++ [c] = t ++ [a; b; c])%list.
Proof. now rewrite <- !app_assoc. Qed.

(** The [finally] block appends release calls only; when each of them
    returned, the block returns and has made every call due. *)
Lemma teardown_returned E s :
  exists rel,
    trace (fst (teardown E s)) = (trace s ++ rel)%list /\
    Forall (fun e => is_release (what e) = true) rel /\
    (Forall (fun e => returned e = true) rel ->
     snd (teardown E s) = Ok tt /\
     map what rel =
       filter (fun c => match c with
                        | CloseContext => context s
                        | CloseBrowser => browser s
                        | _ => pw s
                        end) [CloseContext; CloseBrowser; StopPlaywright]).
Proof.
  unfold teardown, when, api_, api, bind, ret.
  destruct s as [p b c t]. simpl.
  destruct c, b, p; simpl;
    repeat match goal with
           | |- context [raises (respond ?E ?h ?c)] =>
               let Er := fresh "Er" in
               destruct (raises (respond E h c)) eqn:Er; simpl
           end;
    (eexists; split;
     [first [apply log_thrice | apply log_twice | reflexivity
            | symmetry; apply app_nil_r] |]);
    (split; [repeat constructor |]);
    intros HF;
    first
      [ split; reflexivity
      | exfalso;
        repeat match goal with
               | H : Forall _ (_ :: _) |- _ => inversion H; subst; clear H
               end;
        unfold returned, entry_of in *; simpl in *;
        repeat match goal with
               | Er : raises _ = Some _ |- _ => rewrite Er in *; clear Er
               end;
        discriminate ].
Qed.

Lemma release_all h rel :
  map what rel = due_releases h ->
  Forall (fun e => returned e = true) rel ->
  (h Page = true -> h Context = true) ->
  forall r, fold_left step_held rel h r = false.
Proof.
  unfold due_releases. simpl. intros Hmap Hret Hpage r.
  destruct (h Context) eqn:Hc, (h Browser) eqn:Hb, (h Driver) eqn:Hd;
    simpl in Hmap;
    repeat match goal with
           | H : map what ?l = _ :: _ |- _ =>
               destruct l; simpl in H; [discriminate |];
               injection H as ? H
           | H : map what ?l = [] |- _ =>
               destruct l; simpl in H; [clear H | discriminate]
           | H : Forall _ (_ :: _) |- _ => inversion H; subst; clear H
           end;
    simpl; unfold step_held;
    repeat match goal with
           | H : returned _ = true |- _ => rewrite H; clear H
           | H : what _ = _ |- _ => rewrite H; clear H
           end;
    destruct r; simpl; rewrite ?Hc, ?Hb, ?Hd; simpl; try reflexivity;
    destruct (h Page) eqn:Hp; simpl; try reflexivity;
    specialize (Hpage eq_refl); discriminate.
Qed.

Lemma due_releases_nodup h : NoDup (due_releases h).
Proof.
  unfold due_releases. apply NoDup_filter.
  repeat constructor; simpl; intuition discriminate.
Qed.

Lemma teardown_attempts E s :
  exists rel,
    trace (fst (teardown E s)) = (trace s ++ rel)%list /\
    is_prefix (map what rel)
      (filter (fun c => match c with
                        | CloseContext => context s
                        | CloseBrowser => browser s
                        | _ => pw s
                        end) [CloseContext; CloseBrowser; StopPlaywright]) /\
    NoDup (map what rel).
Proof.
  unfold teardown, when, api_, api, bind, ret.
  destruct s as [p b c t]. simpl.
  destruct c, b, p; simpl;
    repeat match goal with
           | |- context [raises (respond ?E ?h ?c)] =>
               destruct (raises (respond E h c)); simpl
           end;
    rewrite <- ?app_assoc; simpl;
    first
      [ exists []; rewrite app_nil_r; repeat split; constructor
      | eexists; split; [reflexivity |]; simpl; split; [auto |];
        repeat constructor; simpl; intuition discriminate ].
Qed.

Lemma run_test_release_attempted sc E :
  release_attempted (trace (fst (run_test sc E initial))).
Proof.
  change (run_test sc) with (try_finally (setup ;; after_setup sc) teardown).
  unfold try_finally.
  destruct ((setup ;; after_setup sc) E initial) as [s1 r1] eqn:Eb.
  destruct (try_block_spec sc E initial s1 r1 session_inv_initial Eb)
    as [(t & Ht & Ft) Hinv].
  assert (session_inv s1) as Hs by (destruct r1; apply Hinv). clear Hinv.
  destruct (teardown_attempts E s1) as (rel & Htd & Hpre & Hnd).
  destruct Hs as (Hc & Hb & Hp & Hg).
  exists (trace s1), rel. repeat split.
  - destruct (teardown E s1) as [s2 [u | e]]; simpl in *; exact Htd.
  - simpl in Ht. rewrite Ht. eapply Forall_impl; [| exact Ft]. now intros e [_ H].
  - unfold due_releases. simpl. now rewrite <- Hc, <- Hb, <- Hp.
  - exact Hnd.
Qed.

Lemma run_test_released sc E :
  releases_returned (trace (fst (run_test sc E initial))) ->
  released_in_order (trace (fst (run_test sc E initial))) /\
  snd (run_test sc E initial) = snd ((setup ;; after_setup sc) E initial).
Proof.
  change (run_test sc) with (try_finally (setup ;; after_setup sc) teardown).
  unfold try_finally.
  destruct ((setup ;; after_setup sc) E initial) as [s1 r1] eqn:Eb.
  destruct (try_block_spec sc E initial s1 r1 session_inv_initial Eb)
    as [(t & Ht & Ft) Hinv].
  assert (session_inv s1) as Hs by (destruct r1; apply Hinv). clear Hinv.
  destruct (teardown_returned E s1) as (rel & Htd & Hrel & Hall).
  intros Hdone.
  assert (trace (fst (let (s2, r2) := teardown E s1 in
                      match r2 with
                      | Ok _ => (s2, r1)
                      | Raise e => (s2, Raise e)
                      end)) = trace (fst (teardown E s1))) as Htr
    by (destruct (teardown E s1) as [s2 [u | e]]; reflexivity).
  rewrite Htr in *. rewrite Htd in *. clear Htr.
  assert (Forall (fun e => returned e = true) rel) as Hret.
  { apply Forall_app in Hdone as [_ Hdone].
    rewrite Forall_forall in *. intros e He. apply Hdone; auto. }
  destruct (Hall Hret) as [Hok Hmap].
  split; [| destruct (teardown E s1) as [s2 [[] | e]]; [reflexivity | discriminate]].
  destruct Hs as (Hc & Hb & Hp & Hg).
  assert (map what rel = due_releases (held_after (trace s1))) as Hdue.
  { rewrite Hmap. unfold due_releases. simpl. now rewrite Hc, Hb, Hp. }
  exists (trace s1), rel. repeat split.
  - simpl in Ht. rewrite Ht. eapply Forall_impl; [| exact Ft]. now intros e [_ H].
  - exact Hdue.
  - exact Hret.
  - rewrite Hdue. apply due_releases_nodup.
  - unfold allocated. simpl. rewrite !held_after_app.
    rewrite !(release_all _ rel Hdue Hret); [reflexivity | | | |];
      intros Hpg; rewrite <- Hc; now apply Hg.
Qed.

(** The run of TC007 in which [context.close()] raises and every other
    call returns: the [try] block returns normally, [browser.close()] and
    [pw.stop()] are not reached, the run ends with the exception of
    [context.close()] and the four resources stay allocated. *)
Lemma C1_counterexample :
  snd ((setup ;; after_setup tc007) close_context_fails initial) = Ok tt /\
  map what (skipn 34 (trace (fst (run tc007 close_context_fails)))) =
    [CloseContext] /\
  snd (run tc007 close_context_fails) = Raise (Api ApiError) /\
  allocated (trace (fst (run tc007 close_context_fails))) =
    [Driver; Browser; Context; Page] /\
  ~ released_in_order (trace (fst (run tc007 close_context_fails))).
Proof.
  split; [vm_compute; reflexivity |].
  split; [vm_compute; reflexivity |].
  split; [vm_compute; reflexivity |].
  split; [vm_compute; reflexivity |].
  intros (body & rel & _ & _ & _ & _ & _ & H).
  vm_compute in H. discriminate.
Qed.

(** C1 as amended.  For every scenario and every behaviour of the
    browser, whatever the outcome of the [try] block (normal return,
    assertion failure, failure to launch or any other exception), the
    [finally] block runs once, after everything else: the release calls
    of the log are its last entries, none is repeated, and they follow the
    order [context.close()], [browser.close()], [pw.stop()] restricted to
    the resources that were acquired.  The block does not guard one close
    against another: when every release call made returned, all the calls
    due were made, each exactly once, and no resource is left allocated;
    the same holds for the files as the interpreter runs them, and the
    outcome of the run is the outcome of the [try] block. *)
Theorem C1_release_once_in_order (sc : scenario) (E : env) :
  release_attempted (trace (fst (run_test sc E initial))) /\
  (releases_returned (trace (fst (run_test sc E initial))) ->
   released_in_order (trace (fst (run_test sc E initial))) /\
   released_in_order (trace (fst (run sc E))) /\
   snd (run_test sc E initial) = snd ((setup ;; after_setup sc) E initial)).
Proof.
  split; [apply run_test_release_attempted |].
  intros Hdone.
  destruct (run_test_released sc E Hdone) as [H1 H2].
  split; [exact H1 |]. split; [| exact H2].
  destruct sc;
    [ exact H1
    | unfold run, main; rewrite TC003_main
    | exact H1
    | exact H1 ].
  exists [], []. simpl. repeat split; constructor.
Qed.

(** The run of TC001 in which the browser fails to launch. *)
Lemma C1_witness :
  releases_returned (trace (fst (run_test tc001 launch_fails initial))) /\
  released_in_order (trace (fst (run_test tc001 launch_fails initial))) /\
  released_in_order (trace (fst (run tc001 launch_fails))) /\
  snd (run_test tc001 launch_fails initial) =
    snd ((setup ;; after_setup tc001) launch_fails initial).
Proof.
  assert (releases_returned (trace (fst (run_test tc001 launch_fails initial))))
    as H.
  { vm_compute.
    repeat (apply Forall_cons; [intros H; first [reflexivity | exact H] |]).
    apply Forall_nil. }
  split; [exact H |].
  exact (proj2 (C1_release_once_in_order tc001 launch_fails) H).
Defined.

(** When the browser fails to launch, only the driver was acquired and
    only [pw.stop()] is called. *)
Example launch_failure_run :
  map what (trace (fst (run tc001 launch_fails))) =
    [StartPlaywright; LaunchChromium; StopPlaywright] /\
  snd (run tc001 launch_fails) = Raise (Api ApiError) /\
  allocated (trace (fst (run tc001 launch_fails))) = [].
Proof. vm_compute. repeat split. Qed.

(** When [context.close()] itself raises, the two statements after it in
    the [finally] block are not reached. *)
Remark close_context_raising :
  map what (skipn 22 (trace (fst (run tc001 close_context_fails)))) = [CloseContext] /\
  snd (run tc001 close_context_fails) = Raise (Api ApiError) /\
  allocated (trace (fst (run tc001 close_context_fails))) =
    [Driver; Browser; Context; Page].
Proof. vm_compute. repeat split. Qed.

(** ** Timeouts *)


Lemma elapsed_cons e t : elapsed (e :: t) = took (answer e) + elapsed t.
Proof. reflexivity. Qed.


(** The run of TC001 in which every call returns makes seven navigations:
    one in the set-up and the six of its actions. *)
Example TC001_navigations :
  List.length (filter (fun e => match what e with
                                | Goto _ _ _ => true
                                | _ => false
                                end) (trace (fst (run tc001 all_return)))) = 7%nat.
Proof. vm_compute. reflexivity. Qed.

(** ** Load-state waits *)

(** C5.  When [wait_for_load_state("domcontentloaded", timeout=3000)]
    times out, on the page or on a frame, the [except async_api.Error]
    clause catches the [TimeoutError]: the statement returns normally,
    having logged the call, and whatever statement [k] comes next runs
    from there. *)
Theorem C5_load_state_timeout_swallowed
    (E : env) (s : state) (r : receiver) (k : M unit) :
  raises (respond E (trace s) (WaitForLoadState r DomContentLoaded (Some 3000)))
    = Some ApiTimeoutError ->
  let s1 := log s (entry_of E (trace s)
                     (WaitForLoadState r DomContentLoaded (Some 3000))) in
  wait_for_load_state r E s = (s1, Ok tt) /\
  (wait_for_load_state r ;; k) E s = k E s1.
Proof.
  intros H s1.
  assert (wait_for_load_state r E s = (s1, Ok tt)) as H1.
  { unfold wait_for_load_state, try_except, api_, api, bind. now rewrite H. }
  split; [exact H1 |]. unfold bind. now rewrite H1.
Qed.

(** The first load-state wait of a run in which these waits time out. *)
Lemma C5_witness :
  raises (respond slow_load (trace initial)
            (WaitForLoadState OnPage DomContentLoaded (Some 3000)))
    = Some ApiTimeoutError /\
  let s1 := log initial (entry_of slow_load (trace initial)
                           (WaitForLoadState OnPage DomContentLoaded (Some 3000))) in
  wait_for_load_state OnPage slow_load initial = (s1, Ok tt) /\
  (wait_for_load_state OnPage ;; wait_for_frames) slow_load initial =
    wait_for_frames slow_load s1.
Proof.
  split; [reflexivity |].
  apply (C5_load_state_timeout_swallowed slow_load initial OnPage wait_for_frames).
  reflexivity.
Defined.

(** No exception of the library's [Error] class, a timeout included,
    leaves a load-state wait, whatever the browser does. *)
Lemma load_state_wait_never_raises_error E s r e :
  snd (wait_for_load_state r E s) = Raise e ->
  isinstance e cls_async_api_Error = false.
Proof.
  unfold wait_for_load_state, try_except, api_, api, bind.
  destruct (raises (respond E (trace s) _)) as [[| | |] |]; simpl;
    intros H; inversion H; reflexivity.
Qed.

(** With every load-state wait timing out and every other call returning,
    TC007 runs to its end. *)
Example slow_load_run_passes :
  snd (run tc007 slow_load) = Ok tt /\
  map returned (firstn 2 (skipn 6 (trace (fst (run tc007 slow_load))))) =
    [false; false].
Proof. vm_compute. split; reflexivity. Qed.

(** ** The terminal assertion *)

Lemma uses_expect_never_asserts sc E :
  uses_expect sc = true ->
  never_asserts (run_test sc E initial) /\ never_asserts (run sc E).
Proof.
  intros Hu.
  assert (never_asserts (run_test sc E initial)) as H.
  { destruct (run_test_outcome sc E) as [Ht Hr].
    unfold never_asserts. repeat split.
    - intros Hok. rewrite Hok in Hr. simpl in Hr. congruence.
    - intros m Hm. rewrite Hm in Hr. simpl in Hr. destruct Hr as [-> _]. discriminate.
    - eapply Forall_impl; [| exact Ht].
      intros e He. unfold scripted in He. destruct (what e); auto. }
  split; [exact H |].
  destruct sc; try exact H.
  unfold run, main. rewrite TC003_main.
  unfold never_asserts. simpl. repeat split; try discriminate. constructor.
Qed.

(** C9.  The name [expect] is bound neither by the imports nor by a
    definition of the module.  The assertion blocks of TC001, TC003 and
    TC008 apply it, so the [try] statement of the block always ends with
    [NameError], without calling the library and without entering the
    [except AssertionError] handler, which does not catch a [NameError].
    Hence no run of these three scenarios returns normally or ends with
    the authored [AssertionError], and no run calls
    [expect(...).to_be_visible]. *)
Theorem C9_expect_is_unbound :
  bound "expect" = false /\
  isinstance (NameError "expect") cls_AssertionError = false /\
  (forall text message E s,
      try_expect text message E s = (s, Raise (NameError "expect"))) /\
  TC001.assertion = expect_visible TC001.expected TC001.message /\
  TC003.assertion = expect_visible TC003.expected TC003.message /\
  TC008.assertion = expect_visible TC008.expected TC008.message /\
  Forall (fun sc => forall E,
            never_asserts (run_test sc E initial) /\ never_asserts (run sc E))
         [tc001; tc003; tc008].
Proof.
  repeat (split; [reflexivity |]).
  repeat (apply Forall_cons;
          [intros E; now apply uses_expect_never_asserts |]).
  apply Forall_nil.
Qed.

(** ** The file TC003 *)

(** C10.  Lines 336 and 341 of TC003 are a triple backtick at the
    indentation of the function body, around the [try] statement of the
    assertion block.  The backtick is a lexical error outside strings and
    comments, so the first error of the file is on line 336, and without
    these two lines the scanner finds none.  Every run of the file ends
    with [SyntaxError] before any statement executes: the log is empty and
    no resource was acquired. *)
Theorem C10_TC003_does_not_compile :
  nth_error TC003.source 334 = Some "        frame = context.pages[-1]" /\
  nth_error TC003.source 335 = Some "        ```" /\
  nth_error TC003.source 336 = Some "        try:" /\
  nth_error TC003.source 340 = Some "        ```" /\
  Lexer.first_error TC003.source = Some 336%nat /\
  Lexer.first_error TC003_without_fences = None /\
  forall E,
    run tc003 E = (initial, Raise (SyntaxError 336)) /\
    trace (fst (run tc003 E)) = [] /\
    allocated (trace (fst (run tc003 E))) = [].
Proof.
  repeat split; try (vm_compute; reflexivity);
    unfold run, main; rewrite TC003_main; reflexivity.
Qed.

(** C7.  In the run of TC001, and of TC008, in which every call returns
    and the awaited text never becomes visible, the run ends with
    [NameError: expect], which the specification classifies as Errored and
    not as Failed, and the authored message is not produced.  The handler
    the scripts wrote would raise the authored message, had the failed
    [expect] call been reached; and each authored message names the
    expected text. *)
Theorem C7_assertion_failure_at_never_visible :
  snd (run tc001 never_visible) = Raise (NameError "expect") /\
  Spec.status_of (snd (run tc001 never_visible)) = Spec.Errored /\
  snd (run tc008 never_visible) = Raise (NameError "expect") /\
  Spec.status_of (snd (run tc008 never_visible)) = Spec.Errored /\
  (forall loc message s,
      snd (try_except (api_ (ExpectVisible loc (Some 3000))) cls_AssertionError
             (raise (AssertionError message)) never_visible s)
      = Raise (AssertionError message)) /\
  contains TC001.expected TC001.message = true /\
  contains TC008.expected TC008.message = true /\
  contains TC003.expected TC003.message = true.
Proof. repeat split; vm_compute; reflexivity. Qed.

(** ** Exit status *)

(** TC007 with a browser that fails to launch is Errored and exits with
    1, not with 2. *)
Lemma C8_counterexample :
  ~ (forall sc E,
       exit_code (snd (run sc E)) =
       Spec.exit_code_of (Spec.status_of (snd (run sc E)))).
Proof.
  intros H. specialize (H tc007 launch_fails).
  vm_compute in H. discriminate.
Qed.

(** C8 as amended.  The interpreter exits with 0 when the run is Passed and
    with 1 when it is Failed or Errored; it never exits with 2.  The three
    outcomes occur: TC007 passes when every call returns, fails when the
    element is hidden, and errors when the browser does not launch; the
    last two runs exit with the same code. *)
Theorem C8_exit_code_is_0_or_1 (sc : scenario) (E : env) :
  exit_code (snd (run sc E)) =
    match Spec.status_of (snd (run sc E)) with
    | Spec.Passed => 0
    | Spec.Failed => 1
    | Spec.Errored => 1
    end /\
  exit_code (snd (run sc E)) <> 2 /\
  (Spec.status_of (snd (run tc007 all_return)) = Spec.Passed /\
   exit_code (snd (run tc007 all_return)) = 0) /\
  (Spec.status_of (snd (run tc007 slow_load_hidden)) = Spec.Failed /\
   exit_code (snd (run tc007 slow_load_hidden)) = 1) /\
  (Spec.status_of (snd (run tc007 launch_fails)) = Spec.Errored /\
   exit_code (snd (run tc007 launch_fails)) = 1).
Proof.
  split; [| split].
  - destruct (snd (run sc E)) as [u | e]; [reflexivity |].
    unfold Spec.status_of, exit_code.
    destruct (isinstance e cls_AssertionError); reflexivity.
  - destruct (snd (run sc E)); simpl; discriminate.
  - repeat split; vm_compute; reflexivity.
Qed.

(** ** The actions are a fixed sequence *)

Lemma is_prefix_nil l : is_prefix [] l.
Proof. destruct l; exact I. Qed.

Lemma is_prefix_refl l : is_prefix l l.
Proof. induction l; simpl; auto. Qed.

Lemma is_prefix_app l p q : is_prefix p q -> is_prefix (l ++ p) (l ++ q).
Proof. induction l; simpl; auto. Qed.

Lemma is_prefix_app_r p q r : is_prefix p q -> is_prefix p (q ++ r).
Proof.
  revert q. induction p as [| c p IH]; intros q H; [apply is_prefix_nil |].
  destruct q as [| d q]; simpl in *; [contradiction |].
  destruct H as [-> H]. split; [reflexivity | now apply IH].
Qed.

Lemma returned_entry E h c :
  raises (respond E h c) = None -> returned (entry_of E h c) = true.
Proof. unfold returned, entry_of. simpl. now intros ->. Qed.

Lemma exec_linear a E s : linear [a] s (exec a E s).
Proof.
  unfold linear. simpl flat_map. rewrite app_nil_r.
  destruct a as [url | xpath text | xpath]; simpl exec;
    unfold goto, fill_step, click_step, pages_last, api_, api, bind, ret;
    repeat match goal with
           | |- context [Nat.eqb ?a ?b] => destruct (Nat.eqb a b)
           | |- context [raises (respond ?E ?h ?c)] =>
               let Er := fresh "Er" in
               destruct (raises (respond E h c)) eqn:Er
           end;
    simpl;
    first
      [ exists []; rewrite app_nil_r; repeat split; exact I
      | eexists [_]; split; [reflexivity |]; simpl;
        repeat split; auto using returned_entry
      | eexists [_; _]; split; [now rewrite <- app_assoc |]; simpl;
        repeat split; auto using returned_entry ].
Qed.

Lemma run_actions_linear l E s : linear l s (run_actions l E s).
Proof.
  revert s. induction l as [| a l IH]; intros s.
  - exists []. simpl. rewrite app_nil_r. repeat split; constructor.
  - simpl run_actions. unfold bind.
    destruct (exec_linear a E s) as (t1 & Ht1 & Hp1 & Hr1).
    simpl flat_map in *. rewrite app_nil_r in Hp1, Hr1.
    destruct (exec a E s) as [s1 [u | e]]; simpl in *.
    + destruct Hr1 as [Hm1 Hf1].
      destruct (IH s1) as (t2 & Ht2 & Hp2 & Hr2).
      exists (t1 ++ t2)%list. split; [| split].
      * now rewrite Ht2, Ht1, app_assoc.
      * rewrite map_app, Hm1. now apply is_prefix_app.
      * destruct (snd (run_actions l E s1)); [| exact I].
        destruct Hr2 as [Hm2 Hf2]. split.
        -- now rewrite map_app, Hm1, Hm2.
        -- apply Forall_app; now split.
    + exists t1. repeat split; auto. now apply is_prefix_app_r.
Qed.

(** In the run of TC008 in which every call returns, the submit button of
    the login form is clicked twice. *)
Lemma C3_counterexample :
  ~ Spec.no_resubmission (trace (fst (run tc008 all_return))).
Proof.
  unfold Spec.no_resubmission.
  assert (returned_clicks submit_button (trace (fst (run tc008 all_return))) = 2%nat)
    as H by (vm_compute; reflexivity).
  rewrite H. lia.
Qed.

(** C3 as amended.  The scripts have no recovery controller and keep no
    resumption point.  The actions of a scenario are one fixed sequence:
    from any state and under any behaviour of the browser, the calls made
    are an initial segment of that sequence, in order, the whole of it
    when no call raises.  The sequence writes the login block several
    times, so a run in which every call returns clicks the submit button
    of the login form again after an earlier click on it returned: twice
    in TC008, three times in TC007 (and nine times in the statements of
    TC003, after each of its re-navigations included). *)
Theorem C3_actions_are_one_fixed_sequence (sc : scenario) (E : env) (s : state) :
  linear (actions_of sc) s (run_actions (actions_of sc) E s) /\
  clicks_in submit_button (flat_map script_calls (actions_of sc)) =
    match sc with
    | tc001 => 1%nat
    | tc003 => 9%nat
    | tc007 => 3%nat
    | tc008 => 2%nat
    end /\
  returned_clicks submit_button (trace (fst (run tc008 all_return))) = 2%nat /\
  returned_clicks submit_button (trace (fst (run tc007 all_return))) = 3%nat /\
  returned_clicks submit_button (trace (fst (run_test tc003 all_return initial))) = 9%nat.
Proof.
  split; [apply run_actions_linear |].
  split; [destruct sc; vm_compute; reflexivity |].
  repeat split; vm_compute; reflexivity.
Qed.

(** ** Interactive steps *)

Lemma new_entries_log0 s : new_entries s s = [].
Proof.
  unfold new_entries. rewrite <- (app_nil_r (trace s)) at 2.
  rewrite skipn_app, skipn_all, Nat.sub_diag. reflexivity.
Qed.

Lemma new_entries_log1 s e : new_entries s (log s e) = [e].
Proof.
  unfold new_entries. simpl.
  rewrite skipn_app, skipn_all, Nat.sub_diag. reflexivity.
Qed.

Lemma new_entries_log2 s e1 e2 : new_entries s (log (log s e1) e2) = [e1; e2].
Proof.
  unfold new_entries. simpl. rewrite <- app_assoc.
  rewrite skipn_app, skipn_all, Nat.sub_diag. reflexivity.
Qed.

Lemma step_budgets_of op s E (e1 := entry_of E (trace s) (WaitForTimeout 3000))
    (e2 := entry_of E (trace (log s e1)) op) :
  is_operation e2 = true ->
  budget e2 = Some 5000 ->
  step_budgets [] /\ step_budgets [e1] /\ step_budgets [e1; e2].
Proof.
  intros Hop Hb.
  assert (is_operation e1 = false) as H1 by reflexivity.
  assert (budget e1 = Some 3000) as Hb1 by reflexivity.
  clearbody e1 e2. unfold step_budgets.
  split; [| split].
  - split; [constructor |]. intros _. cbn. lia.
  - split.
    + constructor; [now rewrite H1 | constructor].
    + intros Hf. inversion Hf as [| ? ? Ho1 _]; subst.
      unfold on_time in Ho1. rewrite Hb1 in Ho1.
      cbn [filter]. rewrite H1. rewrite elapsed_cons. cbn. lia.
  - split.
    + constructor; [now rewrite H1 |].
      constructor; [now rewrite Hop | constructor].
    + intros Hf. inversion Hf as [| ? ? Ho1 Hf2]; subst.
      inversion Hf2 as [| ? ? Ho2 _]; subst.
      unfold on_time in Ho1, Ho2. rewrite Hb1 in Ho1. rewrite Hb in Ho2.
      cbn [filter]. rewrite H1, Hop. rewrite !elapsed_cons. cbn. lia.
Qed.

(** The three statements of a step, by cases on what the environment
    answers. *)
Lemma step_cases op E s (e1 := entry_of E (trace s) (WaitForTimeout 3000))
    (e2 := entry_of E (trace (log s e1)) op) :
  (pages_last ;; api_ (WaitForTimeout 3000) ;; api_ op) E s =
    if Nat.eqb (open_pages E (trace s)) 0 then (s, Raise IndexError)
    else match raises (answer e1) with
         | Some a => (log s e1, Raise (Api a))
         | None =>
             match raises (answer e2) with
             | Some a => (log (log s e1) e2, Raise (Api a))
             | None => (log (log s e1) e2, Ok tt)
             end
         end.
Proof.
  subst e1 e2. unfold pages_last, api_, api, bind, ret. simpl.
  destruct (Nat.eqb _ _); [reflexivity |].
  destruct (raises (respond E (trace s) _)); [reflexivity |].
  destruct (raises (respond E _ op)); reflexivity.
Qed.

Lemma step_interactive op E s :
  is_operation (entry_of E (trace (log s (entry_of E (trace s) (WaitForTimeout 3000)))) op)
    = true ->
  budget (entry_of E (trace (log s (entry_of E (trace s) (WaitForTimeout 3000)))) op)
    = Some 5000 ->
  runs_interactive_step op s
    ((pages_last ;; api_ (WaitForTimeout 3000) ;; api_ op) E s).
Proof.
  intros Hop Hb.
  destruct (step_budgets_of op s E Hop Hb) as (H0 & H1 & H2).
  rewrite step_cases.
  set (e1 := entry_of E (trace s) (WaitForTimeout 3000)) in *.
  set (e2 := entry_of E (trace (log s e1)) op) in *.
  assert (what e1 = WaitForTimeout 3000) as Hw1 by reflexivity.
  assert (what e2 = op) as Hw2 by reflexivity.
  clearbody e2. clearbody e1.
  unfold runs_interactive_step, interactive_step.
  destruct (Nat.eqb _ _); cbn [fst snd].
  { rewrite new_entries_log0, app_nil_r.
    split; [reflexivity |]. split; [now left | exact H0]. }
  destruct (raises (answer e1)) as [a1 |] eqn:Er1; cbn [fst snd].
  { rewrite new_entries_log1.
    split; [reflexivity |]. split; [| exact H1].
    right; left. exists e1, a1. auto. }
  assert (returned e1 = true) as R1 by (unfold returned; now rewrite Er1).
  destruct (raises (answer e2)) as [a2 |] eqn:Er2; cbn [fst snd];
    rewrite new_entries_log2;
    (split; [apply log_twice |]); (split; [| exact H2]).
  - right; right. exists e1, e2, a2. auto 6.
  - exists e1, e2. repeat split; auto.
    unfold returned. now rewrite Er2.
Qed.

Lemma click_step_interactive xpath E s :
  runs_interactive_step (Click xpath (Some 5000)) s (click_step xpath E s).
Proof. now apply (step_interactive (Click xpath (Some 5000))). Qed.

Lemma fill_step_interactive xpath text E s :
  default_set s ->
  runs_interactive_step (Fill xpath text None) s (fill_step xpath text E s).
Proof.
  intros Hd.
  apply (step_interactive (Fill xpath text None)); [reflexivity |].
  unfold entry_of at 1. cbn [budget budget_of explicit_or].
  rewrite default_in_force_log. exact Hd.
Qed.

(** A click step after a set-up in which every call returned: the pause
    lasts 3000 ms, the click returns after 2500 ms, within its own budget
    of 5000 ms; the step took 5500 ms. *)
Lemma C6_counterexample :
  let t := new_entries after_setup_state
             (fst (click_step submit_button all_return after_setup_state)) in
  snd (click_step submit_button all_return after_setup_state) = Ok tt /\
  map what t = [WaitForTimeout 3000; Click submit_button (Some 5000)] /\
  map budget t = [Some 3000; Some 5000] /\
  Forall on_time t /\
  elapsed t = 5500 /\
  ~ Spec.within_budget 5000 t.
Proof.
  repeat split; try (vm_compute; reflexivity).
  - vm_compute. repeat constructor; discriminate.
  - unfold Spec.within_budget.
    assert (elapsed (new_entries after_setup_state
              (fst (click_step submit_button all_return after_setup_state))) = 5500)
      as H by (vm_compute; reflexivity).
    rewrite H. lia.
Qed.

(** C6 as amended.  Every interactive step first pauses for 3000 ms and
    then makes one library call, [elem.fill] or [elem.click], in which the
    locator is resolved and the operation performed under one budget of
    5000 ms (given at the call for a click, the session default for a
    fill).  A step that returns has logged exactly the pause and then the
    operation, both returned; a step that raises has logged nothing (no
    page is open), or the pause that raised, or the pause and the
    operation that raised.  The pause is outside the budget of the
    operation: when the calls keep to their budgets the operation takes at
    most 5000 ms and the whole step at most 8000 ms. *)
Theorem C6_interactive_step_budget (E : env) (s : state) (xpath text : string) :
  default_set s ->
  runs_interactive_step (Click xpath (Some 5000)) s (click_step xpath E s) /\
  runs_interactive_step (Fill xpath text None) s (fill_step xpath text E s).
Proof.
  intros Hd. split;
    [apply click_step_interactive | now apply fill_step_interactive].
Qed.

(** The first fill and a click after a set-up in which every call
    returned. *)
Lemma C6_witness :
  default_set after_setup_state /\
  runs_interactive_step (Click email_input (Some 5000)) after_setup_state
    (click_step email_input all_return after_setup_state) /\
  runs_interactive_step (Fill email_input "example@gmail.com" None) after_setup_state
    (fill_step email_input "example@gmail.com" all_return after_setup_state).
Proof.
  assert (default_set after_setup_state) as H by (vm_compute; reflexivity).
  split; [exact H |].
  exact (C6_interactive_step_budget all_return after_setup_state
           email_input "example@gmail.com" H).
Defined.

(** ** The coroutine as a straight line of calls *)

Lemma passed_all_until_last t : forallb passed t = true -> passed_until_last t = true.
Proof.
  induction t as [| e t IH]; simpl; [reflexivity |].
  intros H. apply andb_prop in H as [He Ht].
  destruct t; [reflexivity |]. rewrite He. now apply IH.
Qed.

Lemma passed_until_last_app t1 t2 :
  forallb passed t1 = true -> passed_until_last t2 = true ->
  passed_until_last (t1 ++ t2) = true.
Proof.
  induction t1 as [| e t1 IH]; simpl; [auto |].
  intros H H2. apply andb_prop in H as [He Ht].
  specialize (IH Ht H2).
  destruct (t1 ++ t2)%list; [reflexivity |].
  rewrite He. exact IH.
Qed.

Lemma is_prefix_forall (P : call -> Prop) l L :
  is_prefix l L -> Forall P L -> Forall P l.
Proof.
  revert L. induction l as [| c l IH]; intros L Hp HL; [constructor |].
  destruct L as [| d L]; simpl in Hp; [contradiction |].
  destruct Hp as [-> Hp]. inversion HL; subst.
  constructor; [assumption | eapply IH; eassumption].
Qed.

Lemma follows_silent {A} (m : M A) E s :
  fst (m E s) = s -> follows [] s (m E s).
Proof.
  intros H. exists []. rewrite H, app_nil_r. split; [reflexivity |].
  destruct (snd (m E s)); split; reflexivity || exact I.
Qed.

Lemma follows_name n E s : follows [] s (name n E s).
Proof. apply follows_silent. unfold name. now destruct (bound n). Qed.

Lemma follows_pages_last E s : follows [] s (pages_last E s).
Proof. apply follows_silent. unfold pages_last. now destruct (Nat.eqb _ _). Qed.

Lemma follows_api c E s : follows [c] s (api c E s).
Proof.
  unfold api. exists [entry_of E (trace s) c].
  destruct (raises (respond E (trace s) c)) eqn:Er; simpl;
    (split; [reflexivity |]); split; auto.
  unfold passed. simpl. now rewrite Er.
Qed.

Lemma follows_bind {A B} (m : M A) (k : A -> M B) L1 L2 E s :
  follows L1 s (m E s) ->
  (forall a s1, m E s = (s1, Ok a) -> follows L2 s1 (k a E s1)) ->
  follows (L1 ++ L2) s (bind m k E s).
Proof.
  intros (t1 & Ht1 & H1) Hk. unfold bind.
  destruct (m E s) as [s1 [a | e]] eqn:Em; simpl in *.
  - destruct H1 as [Hm1 Hp1].
    destruct (Hk a s1 eq_refl) as (t2 & Ht2 & H2).
    exists (t1 ++ t2)%list. split; [now rewrite Ht2, Ht1, app_assoc |].
    destruct (snd (k a E s1)).
    + destruct H2 as [Hm2 Hp2]. split.
      * now rewrite map_app, Hm1, Hm2.
      * rewrite forallb_app, Hp1, Hp2. reflexivity.
    + destruct H2 as [Hm2 Hp2]. split.
      * rewrite map_app, Hm1. now apply is_prefix_app.
      * now apply passed_until_last_app.
  - exists t1. split; [assumption |]. destruct H1 as [Hp Hl].
    split; [now apply is_prefix_app_r | assumption].
Qed.

(** The same when the calls of the first statement depend on a number
    that only its run tells. *)
Lemma follows_bind_some {A B} (m : M A) (k : A -> M B) (F : nat -> list call) L2 E s :
  (exists n, follows (F n) s (m E s)) ->
  (forall a s1, follows L2 s1 (k a E s1)) ->
  exists n, follows (F n ++ L2) s (bind m k E s).
Proof.
  intros [n H] Hk. exists n. apply follows_bind; [assumption |].
  intros a s1 _. apply Hk.
Qed.

Lemma follows_bind_then {A B} (m : M A) (k : A -> M B) L1 (F : nat -> list call) E s :
  follows L1 s (m E s) ->
  (forall a s1, exists n, follows (F n) s1 (k a E s1)) ->
  exists n, follows (L1 ++ F n) s (bind m k E s).
Proof.
  intros H Hk.
  destruct (m E s) as [s1 [a | e]] eqn:Em.
  - destruct (Hk a s1) as [n Hn]. exists n.
    apply follows_bind; [now rewrite Em |].
    intros a' s1' Heq. rewrite Em in Heq. inversion Heq; subst. exact Hn.
  - exists 0%nat. apply follows_bind; [now rewrite Em |].
    intros a' s1' Heq. rewrite Em in Heq. discriminate.
Qed.

(** The same with the number tied to what [page.frames] reports. *)
Lemma frames_bind_some {A B} (m : M A) (k : A -> M B) (F : nat -> list call) L2 E s :
  (exists n, frames_reported E n /\ follows (F n) s (m E s)) ->
  (forall a s1, follows L2 s1 (k a E s1)) ->
  exists n, frames_reported E n /\ follows (F n ++ L2) s (bind m k E s).
Proof.
  intros (n & Hn & H) Hk. exists n. split; [exact Hn |].
  apply follows_bind; [assumption |].
  intros a s1 _. apply Hk.
Qed.

Lemma frames_bind_then {A B} (m : M A) (k : A -> M B) L1 (F : nat -> list call) E s :
  follows L1 s (m E s) ->
  (forall a s1, exists n, frames_reported E n /\ follows (F n) s1 (k a E s1)) ->
  exists n, frames_reported E n /\ follows (L1 ++ F n) s (bind m k E s).
Proof.
  intros H Hk.
  destruct (m E s) as [s1 [a | e]] eqn:Em.
  - destruct (Hk a s1) as (n & Hf & Hn). exists n. split; [exact Hf |].
    apply follows_bind; [now rewrite Em |].
    intros a' s1' Heq. rewrite Em in Heq. inversion Heq; subst. exact Hn.
  - exists 0%nat. split; [now left |].
    apply follows_bind; [now rewrite Em |].
    intros a' s1' Heq. rewrite Em in Heq. discriminate.
Qed.

Lemma follows_api_ c E s : follows [c] s (api_ c E s).
Proof.
  unfold api_. rewrite <- (app_nil_r [c]).
  apply follows_bind; [apply follows_api |].
  intros a s1 _. now apply follows_silent.
Qed.

Lemma follows_assign c set_v E s :
  (forall E s, exists s1, set_v E s = (s1, Ok tt) /\ trace s1 = trace s) ->
  follows [c] s (assign c set_v E s).
Proof.
  intros Hset. unfold assign. rewrite <- (app_nil_r [c]).
  apply follows_bind; [apply follows_api_ |].
  intros a s1 _. destruct (Hset E s1) as (s2 & H2 & T2).
  exists []. rewrite H2. simpl. rewrite app_nil_r. auto.
Qed.

Lemma follows_set_default_timeout ms E s :
  follows [SetDefaultTimeout ms] s (set_default_timeout ms E s).
Proof.
  eexists [_]. split; [reflexivity |]. simpl. auto.
Qed.

Lemma follows_wait_for_load_state r E s :
  follows [load_state_call r] s (wait_for_load_state r E s).
Proof.
  unfold wait_for_load_state, try_except, api_, api, bind, ret, load_state_call.
  exists [entry_of E (trace s) (WaitForLoadState r DomContentLoaded (Some 3000))].
  destruct (raises (respond E (trace s) _)) as [[| | |] |] eqn:Er; simpl;
    (split; [reflexivity |]); split; auto;
    unfold passed; simpl; now rewrite Er.
Qed.

Lemma follows_frames n : forall i E s,
  follows (frame_waits i n) s
          (for_range i n (fun j => wait_for_load_state (OnFrame j)) E s).
Proof.
  induction n as [| n IH]; intros i E s.
  - now apply follows_silent.
  - change (frame_waits i (S n))
      with ([load_state_call (OnFrame i)] ++ frame_waits (S i) n)%list.
    simpl for_range. apply follows_bind; [apply follows_wait_for_load_state |].
    intros a s1 _. apply IH.
Qed.

Lemma follows_wait_for_frames E s :
  follows (frame_waits 0 (page_frames E (trace s))) s (wait_for_frames E s).
Proof. apply follows_frames. Qed.

Lemma follows_exec a E s : follows (script_calls a) s (exec a E s).
Proof.
  destruct a as [url | xpath text | xpath]; simpl.
  - apply follows_api_.
  - apply (follows_bind pages_last _ [] [_; _]); [apply follows_pages_last |].
    intros _ s1 _.
    apply (follows_bind (api_ _) _ [_] [_]); [apply follows_api_ |].
    intros _ s2 _. apply follows_api_.
  - apply (follows_bind pages_last _ [] [_; _]); [apply follows_pages_last |].
    intros _ s1 _.
    apply (follows_bind (api_ _) _ [_] [_]); [apply follows_api_ |].
    intros _ s2 _. apply follows_api_.
Qed.

Lemma follows_run_actions l : forall E s,
  follows (flat_map script_calls l) s (run_actions l E s).
Proof.
  induction l as [| a l IH]; intros E s.
  - now apply follows_silent.
  - simpl. apply follows_bind; [apply follows_exec |].
    intros _ s1 _. apply IH.
Qed.

Lemma follows_assertion sc E s :
  follows (assertion_calls sc) s (assertion_of sc E s).
Proof.
  assert (forall text message s0,
             follows [] s0 (expect_visible text message E s0)) as Hx.
  { intros text message s0. unfold expect_visible.
    apply (follows_bind pages_last _ [] []); [apply follows_pages_last |].
    intros _ s1 _. now apply follows_silent. }
  destruct sc; simpl; try apply Hx.
  unfold TC007.assertion.
  apply (follows_bind pages_last _ [] [_; _]); [apply follows_pages_last |].
  intros _ s1 _.
  apply (follows_bind pages_last _ [] [_; _]); [apply follows_pages_last |].
  intros _ s2 _.
  apply (follows_bind (api_ _) _ [_] [_]); [apply follows_api_ |].
  intros _ s3 _.
  rewrite <- (app_nil_r [IsVisible _]).
  apply follows_bind; [apply follows_api |].
  intros r s4 _. apply follows_silent. now destruct (truth r).
Qed.

Lemma follows_sleep E s : follows [Sleep 5] s (sleep 5 E s).
Proof.
  unfold sleep.
  apply (follows_bind (name _) _ [] [_]); [apply follows_name |].
  intros _ s1 _. apply follows_api_.
Qed.

Lemma follows_after_setup sc E s :
  follows (flat_map script_calls (actions_of sc) ++ assertion_calls sc ++ [Sleep 5])
          s (after_setup sc E s).
Proof.
  unfold after_setup.
  apply follows_bind; [apply follows_run_actions |].
  intros _ s1 _. apply follows_bind; [apply follows_assertion |].
  intros _ s2 _. apply follows_sleep.
Qed.

Lemma follows_first_navigation E s :
  exists n,
    follows ([Goto root_url Commit (Some 10000); load_state_call OnPage]
             ++ frame_waits 0 n) s (first_navigation E s).
Proof.
  unfold first_navigation.
  apply (follows_bind_then (goto _) _ [_] (fun n => _ :: frame_waits 0 n));
    [apply follows_api_ |].
  intros _ s1.
  apply (follows_bind_then (wait_for_load_state _) _ [_] (fun n => frame_waits 0 n));
    [apply follows_wait_for_load_state |].
  intros _ s2. eexists. apply follows_wait_for_frames.
Qed.

Lemma follows_setup E s : exists n, follows (setup_calls n) s (setup E s).
Proof.
  unfold setup, setup_calls, session_calls.
  apply (follows_bind_then (name _) _ [] (fun n => _)); [apply follows_name |].
  intros _ s1.
  apply (follows_bind_then (assign _ _) _ [StartPlaywright] (fun n => _));
    [apply follows_assign, set_pw_total |].
  intros _ s2.
  apply (follows_bind_then (assign _ _) _ [LaunchChromium] (fun n => _));
    [apply follows_assign, set_browser_total |].
  intros _ s3.
  apply (follows_bind_then (assign _ _) _ [NewContext] (fun n => _));
    [apply follows_assign, set_context_total |].
  intros _ s4.
  apply (follows_bind_then (set_default_timeout _) _ [SetDefaultTimeout 5000]
           (fun n => _)); [apply follows_set_default_timeout |].
  intros _ s5.
  apply (follows_bind_then (api_ _) _ [NewPage] (fun n => _));
    [apply follows_api_ |].
  intros _ s6. apply follows_first_navigation.
Qed.

Lemma follows_try_block sc E s :
  exists n, follows (try_calls sc n) s ((setup ;; after_setup sc) E s).
Proof.
  unfold try_calls.
  apply (follows_bind_some setup _ setup_calls); [apply follows_setup |].
  intros _ s1. apply follows_after_setup.
Qed.

Lemma frames_first_navigation E s :
  exists n,
    frames_reported E n /\
    follows ([Goto root_url Commit (Some 10000); load_state_call OnPage]
             ++ frame_waits 0 n) s (first_navigation E s).
Proof.
  unfold first_navigation.
  apply (frames_bind_then (goto _) _ [_] (fun n => _ :: frame_waits 0 n));
    [apply follows_api_ |].
  intros _ s1.
  apply (frames_bind_then (wait_for_load_state _) _ [_] (fun n => frame_waits 0 n));
    [apply follows_wait_for_load_state |].
  intros _ s2. eexists. split; [right; eexists; reflexivity |].
  apply follows_wait_for_frames.
Qed.

Lemma frames_setup E s :
  exists n, frames_reported E n /\ follows (setup_calls n) s (setup E s).
Proof.
  unfold setup, setup_calls, session_calls.
  apply (frames_bind_then (name _) _ [] (fun n => _)); [apply follows_name |].
  intros _ s1.
  apply (frames_bind_then (assign _ _) _ [StartPlaywright] (fun n => _));
    [apply follows_assign, set_pw_total |].
  intros _ s2.
  apply (frames_bind_then (assign _ _) _ [LaunchChromium] (fun n => _));
    [apply follows_assign, set_browser_total |].
  intros _ s3.
  apply (frames_bind_then (assign _ _) _ [NewContext] (fun n => _));
    [apply follows_assign, set_context_total |].
  intros _ s4.
  apply (frames_bind_then (set_default_timeout _) _ [SetDefaultTimeout 5000]
           (fun n => _)); [apply follows_set_default_timeout |].
  intros _ s5.
  apply (frames_bind_then (api_ _) _ [NewPage] (fun n => _));
    [apply follows_api_ |].
  intros _ s6. apply frames_first_navigation.
Qed.

Lemma frames_try_block sc E s :
  exists n,
    frames_reported E n /\
    follows (try_calls sc n) s ((setup ;; after_setup sc) E s).
Proof.
  unfold try_calls.
  apply (frames_bind_some setup _ setup_calls); [apply frames_setup |].
  intros _ s1. apply follows_after_setup.
Qed.

Lemma new_entries_app s s' t : trace s' = (trace s ++ t)%list -> new_entries s s' = t.
Proof.
  intros H. unfold new_entries. rewrite H.
  rewrite skipn_app, skipn_all, Nat.sub_diag. reflexivity.
Qed.

Lemma for_range_raises (body : nat -> M unit) (P : exn -> Prop) :
  (forall j E s e, snd (body j E s) = Raise e -> P e) ->
  forall n i E s e, snd (for_range i n body E s) = Raise e -> P e.
Proof.
  intros Hb. induction n as [| n IH]; intros i E s e; simpl.
  - discriminate.
  - unfold bind. destruct (body i E s) as [s1 [u | e1]] eqn:Eb.
    + apply IH.
    + simpl. intros H. inversion H; subst.
      apply (Hb i E s). now rewrite Eb.
Qed.

(** X1.  The loop over [page.frames] waits on every frame, in the order of
    the list, whatever some of the waits do among returning, timing out
    and raising another [Error]: when the loop returns, its calls are the
    load-state waits of frames 0 to n-1.  The loop raises only an
    exception that is not of the class [Error], and then its calls are an
    initial segment of these waits. *)
Theorem X1_frames_loop_waits_on_every_frame (E : env) (s : state) :
  exists t,
    trace (fst (wait_for_frames E s)) = (trace s ++ t)%list /\
    new_entries s (fst (wait_for_frames E s)) = t /\
    match snd (wait_for_frames E s) with
    | Ok _ => map what t = frame_waits 0 (page_frames E (trace s))
    | Raise e => isinstance e cls_async_api_Error = false /\
                 is_prefix (map what t) (frame_waits 0 (page_frames E (trace s)))
    end.
Proof.
  destruct (follows_wait_for_frames E s) as (t & Ht & H).
  exists t. split; [exact Ht |]. split; [now apply new_entries_app |].
  destruct (snd (wait_for_frames E s)) as [u | e] eqn:Er.
  - apply H.
  - split; [| apply H].
    unfold wait_for_frames in Er.
    eapply (for_range_raises (fun j => wait_for_load_state (OnFrame j))
              (fun e => isinstance e cls_async_api_Error = false)); [| exact Er].
    intros j E0 s0 e0. apply load_state_wait_never_raises_error.
Qed.

Lemma release_calls_only rel L :
  is_prefix (map what rel) L ->
  forallb is_release L = true ->
  forallb (fun e => is_release (what e)) rel = true.
Proof.
  revert L. induction rel as [| e rel IH]; intros L Hp HL; [reflexivity |].
  destruct L as [| c L]; simpl in Hp; [contradiction |].
  destruct Hp as [Hc Hp]. simpl in HL. apply andb_prop in HL as [H1 H2].
  simpl. rewrite Hc, H1. simpl. eapply IH; eassumption.
Qed.

Lemma run_test_straight_line sc E : straight_line sc (run_test sc E initial).
Proof.
  change (run_test sc) with (try_finally (setup ;; after_setup sc) teardown).
  unfold try_finally.
  destruct (follows_try_block sc E initial) as (n & t & Ht & H).
  destruct ((setup ;; after_setup sc) E initial) as [s1 r1].
  destruct (teardown_attempts E s1) as (rel & Htd & Hpre & _).
  simpl in Ht, H.
  assert (forallb (fun e => is_release (what e)) rel = true) as Hrel.
  { eapply release_calls_only; [exact Hpre |].
    destruct (context s1), (browser s1), (pw s1); reflexivity. }
  assert (is_prefix (map what t) (try_calls sc n) /\ passed_until_last t = true)
    as [Hp Hl].
  { destruct r1; destruct H as [H1 H2]; [| now split].
    split; [rewrite H1; apply is_prefix_refl | now apply passed_all_until_last]. }
  exists n, t, rel.
  destruct (teardown E s1) as [s2 [u | e2]]; simpl in *;
    rewrite Htd, Ht; repeat split; auto.
  destruct r1; [apply H | exact I].
Qed.


Lemma run_straight_line sc E : straight_line sc (run sc E).
Proof.
  destruct sc;
    [ apply run_test_straight_line
    | unfold run, main; rewrite TC003_main
    | apply run_test_straight_line
    | apply run_test_straight_line ].
  exists 0%nat, [], []. simpl. repeat split; auto.
Qed.

(** ** The timeouts of a run *)

Lemma is_prefix_length l L : is_prefix l L -> (List.length l <= List.length L)%nat.
Proof.
  revert L. induction l as [| c l IH]; intros L H; simpl; [lia |].
  destruct L as [| d L]; simpl in H; [contradiction |].
  destruct H as [_ H]. apply IH in H. simpl. lia.
Qed.

Lemma filter_length_le {A} (f : A -> bool) l :
  (List.length (filter f l) <= List.length l)%nat.
Proof.
  induction l as [| a l IH]; simpl; [lia |].
  destruct (f a); simpl; lia.
Qed.

Lemma timed_waits_releases rel :
  forallb (fun e => is_release (what e)) rel = true -> timed_waits rel = [].
Proof.
  induction rel as [| e rel IH]; [reflexivity |].
  simpl. intros H. apply andb_prop in H as [He Hr].
  unfold timed_waits in *. cbn [filter].
  assert (untimed (what e) = true) as ->
    by (destruct (what e); try discriminate; reflexivity).
  rewrite andb_false_r. now apply IH.
Qed.

(** A run makes at most the calls of its [try] block, for a number of
    frames the page reported, and three release calls. *)
Lemma run_test_calls sc E :
  exists n,
    frames_reported E n /\
    (List.length (trace (fst (run_test sc E initial)))
       <= List.length (try_calls sc n) + 3)%nat /\
    (List.length (timed_waits (trace (fst (run_test sc E initial))))
       <= List.length (try_calls sc n))%nat.
Proof.
  change (run_test sc) with (try_finally (setup ;; after_setup sc) teardown).
  unfold try_finally.
  destruct (frames_try_block sc E initial) as (n & Hn & t & Ht & H).
  destruct ((setup ;; after_setup sc) E initial) as [s1 r1].
  destruct (teardown_attempts E s1) as (rel & Htd & Hpre & _).
  simpl in Ht, H.
  assert (forallb (fun e => is_release (what e)) rel = true) as Hrel.
  { eapply release_calls_only; [exact Hpre |].
    destruct (context s1), (browser s1), (pw s1); reflexivity. }
  assert (List.length rel <= 3)%nat as Hl3.
  { apply is_prefix_length in Hpre. rewrite length_map in Hpre.
    etransitivity; [exact Hpre |]. apply (filter_length_le _ [_; _; _]). }
  assert (List.length t <= List.length (try_calls sc n))%nat as Hlt.
  { rewrite <- (length_map what t). apply is_prefix_length.
    destruct r1; destruct H as [H1 H2]; [| exact H1].
    rewrite H1. apply is_prefix_refl. }
  assert (trace (fst (let (s2, r2) := teardown E s1 in
                      match r2 with
                      | Ok _ => (s2, r1)
                      | Raise e => (s2, Raise e)
                      end)) = (t ++ rel)%list) as ->.
  { destruct (teardown E s1) as [s2 [u | e]]; simpl in *; now rewrite Htd, Ht. }
  exists n. split; [exact Hn |]. split.
  - rewrite length_app. lia.
  - unfold timed_waits. rewrite filter_app.
    fold (timed_waits rel). rewrite (timed_waits_releases rel Hrel), app_nil_r.
    etransitivity; [apply filter_length_le | exact Hlt].
Qed.

Lemma no_budget_entry_of E h c : untimed_without_budget (entry_of E h c).
Proof.
  unfold untimed_without_budget, entry_of.
  destruct c; simpl; intros H; try discriminate; reflexivity.
Qed.

Lemma no_budget_assign c set_v :
  (forall E s, exists s1, set_v E s = (s1, Ok tt) /\ trace s1 = trace s) ->
  triple untimed_without_budget any_state (assign c set_v) any_state
         (fun _ _ => True).
Proof.
  intros Hset. apply triple_assign; [exact Hset |].
  intros E s _ e. split; [apply no_budget_entry_of |].
  destruct (raises (answer e)); [exact I | intros; exact I].
Qed.

Lemma no_budget_api_ c :
  triple untimed_without_budget any_state (api_ c) any_state (fun _ _ => True).
Proof.
  apply triple_api_. intros E s _ e. split; [apply no_budget_entry_of |].
  destruct (raises (answer e)); exact I.
Qed.

Lemma no_budget_setup :
  triple untimed_without_budget any_state setup any_state (fun _ _ => True).
Proof.
  unfold setup.
  apply (triple_bind _ _ _ any_state any_state);
    [apply triple_name; intros; exact I | intros _].
  apply (triple_bind _ _ _ any_state any_state);
    [apply no_budget_assign, set_pw_total | intros _].
  apply (triple_bind _ _ _ any_state any_state);
    [apply no_budget_assign, set_browser_total | intros _].
  apply (triple_bind _ _ _ any_state any_state);
    [apply no_budget_assign, set_context_total | intros _].
  apply (triple_bind _ _ _ any_state any_state).
  { apply triple_set_default_timeout. intros s _ e.
    split; [intros _; reflexivity | exact I]. }
  intros _.
  apply (triple_bind _ _ _ any_state any_state);
    [apply no_budget_api_ | intros _].
  eapply triple_weaken;
    [apply (body_first_navigation untimed_without_budget any_state
              (fun _ => True));
     solve [intros; split; [apply no_budget_entry_of | exact I]
           | intros; exact I] | | |]; auto.
Qed.

Lemma no_budget_try_block sc :
  triple untimed_without_budget any_state (setup ;; after_setup sc) any_state
         (fun _ _ => True).
Proof.
  apply (triple_bind _ _ _ any_state any_state);
    [apply no_budget_setup | intros _].
  eapply triple_weaken;
    [apply (body_after_setup untimed_without_budget any_state (fun _ => True));
     solve [intros; split; [apply no_budget_entry_of | exact I]
           | intros; exact I] | | |]; unfold any_state; auto.
Qed.

Lemma no_budget_teardown :
  triple untimed_without_budget any_state teardown any_state (fun _ _ => True).
Proof.
  assert (forall v c,
             triple untimed_without_budget any_state (when v (api_ c)) any_state
                    (fun _ _ => True)) as H.
  { intros v c.
    apply (triple_when _ _ _ any_state any_state); [| unfold any_state; auto].
    eapply triple_weaken; [apply no_budget_api_ | | |]; unfold any_state; auto. }
  unfold teardown.
  apply (triple_bind _ _ _ any_state any_state); [apply H | intros _].
  apply (triple_bind _ _ _ any_state any_state); [apply H | intros _].
  apply H.
Qed.

(** In every run the untimed calls ran without a timeout. *)
Lemma run_test_no_budget sc E :
  Forall untimed_without_budget (trace (fst (run_test sc E initial))).
Proof.
  assert (triple untimed_without_budget any_state (run_test sc) any_state
                 (fun _ _ => True)) as H.
  { change (run_test sc) with (try_finally (setup ;; after_setup sc) teardown).
    eapply (triple_try_finally untimed_without_budget _ _ any_state any_state);
      [ apply no_budget_try_block | | | apply no_budget_teardown | | | ];
      unfold any_state; simpl; auto. }
  destruct (run_test sc E initial) as [s' r] eqn:Er.
  destruct (H E initial s' r I Er) as [(t & Ht & Ft) _].
  simpl in *. now rewrite Ht.
Qed.

Lemma scripted_timed e :
  scripted e -> untimed_without_budget e -> timed_or_untimed e.
Proof.
  unfold scripted, untimed_without_budget, timed_or_untimed, bounded_wait,
    session_default.
  destruct (what e); simpl; auto; try contradiction;
    intros H _; decompose [and] H; subst;
    eexists; (split; [eassumption |]); (split; [lia |]); auto.
Qed.

Lemma timed_waits_within t :
  Forall timed_or_untimed t -> Forall on_time t ->
  0 <= elapsed (timed_waits t) <= 10000 * Z.of_nat (List.length (timed_waits t)).
Proof.
  induction t as [| e t IH]; intros Hb Ho.
  - cbn. lia.
  - inversion Hb as [| ? ? Hbe Hbt]; inversion Ho as [| ? ? Hoe Hot]; subst.
    specialize (IH Hbt Hot).
    unfold timed_waits in *. cbn [filter].
    destruct (is_suspension e && negb (untimed (what e))) eqn:Es; [| exact IH].
    apply andb_prop in Es as [Es Eu]. apply negb_true_iff in Eu.
    unfold timed_or_untimed in Hbe. rewrite Eu in Hbe.
    unfold is_suspension in Es. unfold bounded_wait in Hbe. unfold on_time in Hoe.
    destruct (suspension_kind (what e)); [| discriminate].
    destruct Hbe as (b & Hb1 & Hb2 & _). rewrite Hb1 in Hoe.
    rewrite elapsed_cons. cbn [List.length]. rewrite Nat2Z.inj_succ. lia.
Qed.

Lemma waits_split t :
  elapsed (waits t) = elapsed (timed_waits t) + elapsed (untimed_awaits t).
Proof.
  induction t as [| e t IH]; [reflexivity |].
  assert (untimed (what e) = true -> is_suspension e = true) as Hu.
  { unfold is_suspension.
    destruct (what e); simpl; intros H; try discriminate; reflexivity. }
  unfold waits, timed_waits, untimed_awaits in *. cbn [filter].
  destruct (is_suspension e), (untimed (what e)); cbn [negb andb];
    rewrite ?elapsed_cons; lia.
Qed.

Lemma timed_run_of sc E t :
  Forall scripted t -> Forall untimed_without_budget t ->
  (exists n,
     frames_reported E n /\
     (List.length t <= List.length (try_calls sc n) + 3)%nat /\
     (List.length (timed_waits t) <= List.length (try_calls sc n))%nat) ->
  timed_run sc E t.
Proof.
  intros Hs Hu Hn.
  assert (Forall timed_or_untimed t) as Ht.
  { rewrite Forall_forall in *. intros e He. apply scripted_timed; auto. }
  split; [exact Ht |]. split; [apply waits_split |]. split; [exact Hn |].
  now apply timed_waits_within.
Qed.

(** The run of TC007 in which every call returns and keeps to its budget
    and the untimed calls take an hour each: the script ends normally
    after more than eight hours.  The calls that open and close the
    session and [elem.is_visible()], which belongs to the terminal
    assertion, are awaited without a timeout. *)
Lemma C2_counterexample :
  snd (run tc007 slow_session) = Ok tt /\
  Forall on_time (trace (fst (run tc007 slow_session))) /\
  (exists e,
     In e (trace (fst (run tc007 slow_session))) /\
     suspension_kind (what e) = Some TerminalAssertion /\
     explicit_timeout (what e) = None /\
     budget e = None /\
     ~ bounded_wait e) /\
  ~ Forall bounded_wait (trace (fst (run tc007 slow_session))) /\
  elapsed (waits (trace (fst (run tc007 slow_session)))) = 28846300 /\
  List.length (waits (trace (fst (run tc007 slow_session)))) = 36%nat /\
  ~ bounded_run (trace (fst (run tc007 slow_session))).
Proof.
  assert (Forall on_time (trace (fst (run tc007 slow_session)))) as Hon.
  { vm_compute. repeat constructor; discriminate. }
  assert (elapsed (waits (trace (fst (run tc007 slow_session)))) = 28846300) as Hel
    by (vm_compute; reflexivity).
  assert (List.length (waits (trace (fst (run tc007 slow_session)))) = 36%nat) as Hlen
    by (vm_compute; reflexivity).
  assert (~ bounded_wait (entry_of slow_session [] (IsVisible ("text=" ++ TC007.expected))))
    as Hnb.
  { intros (b & Hb & _). discriminate. }
  split; [vm_compute; reflexivity |].
  split; [exact Hon |].
  split.
  { exists (entry_of slow_session [] (IsVisible ("text=" ++ TC007.expected))).
    split; [| repeat split; try reflexivity; exact Hnb].
    vm_compute. repeat (first [left; reflexivity | right]). }
  split.
  { intros H. rewrite Forall_forall in H. apply Hnb, H.
    vm_compute. repeat (first [left; reflexivity | right]). }
  split; [exact Hel |]. split; [exact Hlen |].
  intros [_ H]. specialize (H Hon). rewrite Hel, Hlen in H. lia.
Qed.

(** C2 as amended.  In every run of every scenario, under every
    behaviour of the browser, each navigation, element wait of a fill or a
    click, load-state wait, pause and [wait_for] of the terminal assertion
    runs under a timeout between 1 and 10000 ms that is written at the
    call or is the session default of 5000 ms, while the calls that open
    and close the session and [elem.is_visible()] are awaited without any
    timeout.  The script is a straight line: a run makes at most the calls
    of its [try] block, for a number of frames the page reported, and
    three release calls.  The time spent in the suspension points is the
    time spent under a timeout plus the time spent in the untimed calls;
    when every call keeps to its budget the former is at most 10000 ms
    times the number of timed calls, and nothing bounds the latter. *)
Theorem C2_timed_waits_bounded (sc : scenario) (E : env) :
  timed_run sc E (trace (fst (run sc E))) /\
  timed_run sc E (trace (fst (run_test sc E initial))).
Proof.
  assert (timed_run sc E (trace (fst (run_test sc E initial)))) as H.
  { apply timed_run_of;
      [apply run_test_scripted | apply run_test_no_budget | apply run_test_calls]. }
  split; [| exact H].
  destruct sc;
    [ exact H
    | unfold run, main; rewrite TC003_main
    | exact H
    | exact H ].
  simpl. split; [constructor |]. split; [reflexivity |]. split.
  - exists 0%nat. split; [now left |]. simpl. split; lia.
  - intros _. cbn. lia.
Qed.

(** The run of TC007 in which every call returns and keeps to its
    budget. *)
Lemma C2_witness :
  Forall on_time (trace (fst (run tc007 all_return))) /\
  0 <= elapsed (timed_waits (trace (fst (run tc007 all_return)))) <=
    10000 * Z.of_nat (List.length (timed_waits (trace (fst (run tc007 all_return))))).
Proof.
  assert (Forall on_time (trace (fst (run tc007 all_return)))) as H.
  { vm_compute. repeat constructor; discriminate. }
  split; [exact H |].
  exact (proj2 (proj2 (proj2 (proj1 (C2_timed_waits_bounded tc007 all_return)))) H).
Defined.

(** The run of TC007 in which every call returns spends 46300 ms in its
    28 timed suspension points and makes 8 untimed calls. *)
Example TC007_waiting_time :
  elapsed (timed_waits (trace (fst (run tc007 all_return)))) = 46300 /\
  List.length (timed_waits (trace (fst (run tc007 all_return)))) = 28%nat /\
  List.length (untimed_awaits (trace (fst (run tc007 all_return)))) = 8%nat.
Proof. vm_compute. repeat split; reflexivity. Qed.

(** ** The session comes first *)

Lemma release_is_no_page_call rel :
  forallb (fun e => is_release (what e)) rel = true ->
  existsb (fun e => is_page_call (what e)) rel = false.
Proof.
  induction rel as [| e rel IH]; simpl; [reflexivity |].
  intros H. apply andb_prop in H as [H1 H2].
  unfold is_page_call at 1. rewrite H1, andb_false_r. simpl. now apply IH.
Qed.

Lemma passed_session_call e :
  is_session_call (what e) = true -> passed e = true -> returned e = true.
Proof.
  unfold passed, returned. destruct (raises (answer e)); [| reflexivity].
  destruct (what e); simpl; intros H; discriminate || auto.
Qed.

Lemma session_first sc x :
  straight_line sc x ->
  existsb (fun e => is_page_call (what e)) (trace (fst x)) = true ->
  map what (firstn 5 (trace (fst x))) = session_calls /\
  forallb returned (firstn 5 (trace (fst x))) = true /\
  allocated (firstn 5 (trace (fst x))) = [Driver; Browser; Context; Page].
Proof.
  intros (n & body & rel & Ht & Hp & Hl & Hrel & _) Hex.
  rewrite Ht in *. rewrite existsb_app in Hex.
  rewrite (release_is_no_page_call rel Hrel), orb_false_r in Hex.
  unfold try_calls, setup_calls, session_calls in Hp.
  rewrite <- !app_assoc in Hp. cbn [app] in Hp.
  destruct body as [| e1 [| e2 [| e3 [| e4 [| e5 [| e6 body]]]]]];
    cbn [map is_prefix] in Hp;
    repeat match goal with
           | H : _ /\ _ |- _ => destruct H
           end;
    try (cbn [existsb] in Hex;
         repeat match goal with
                | H : what _ = _ |- _ => rewrite H in Hex; clear H
                end;
         discriminate).
  cbn [passed_until_last] in Hl.
  repeat match goal with
         | H : _ && _ = true |- _ => apply andb_prop in H as [? H]
         end.
  assert (returned e1 = true) as R1
    by (apply passed_session_call; [now rewrite H | assumption]).
  assert (returned e2 = true) as R2
    by (apply passed_session_call; [now rewrite H0 | assumption]).
  assert (returned e3 = true) as R3
    by (apply passed_session_call; [now rewrite H1 | assumption]).
  assert (returned e4 = true) as R4
    by (apply passed_session_call; [now rewrite H2 | assumption]).
  assert (returned e5 = true) as R5
    by (apply passed_session_call; [now rewrite H3 | assumption]).
  cbn [app firstn map forallb].
  rewrite H, H0, H1, H2, H3, R1, R2, R3, R4, R5.
  repeat split.
  unfold allocated, held_after. cbn [fold_left filter]. unfold step_held.
  rewrite H, H0, H1, H2, H3, R1, R2, R3, R4, R5. reflexivity.
Qed.

(** X3.  No page is touched without a whole session.  If the log of a
    run contains any call on the page (a navigation, a wait, a fill, a
    click, a visibility query, a sleep), then the first five entries of
    the log are the start of the driver, the launch of the browser, the
    creation of the context, the setting of its default timeout and the
    creation of the page, each of which returned, so that driver, browser,
    context and page are all held from there on. *)
Theorem X3_session_before_any_page_call (sc : scenario) (E : env) :
  existsb (fun e => is_page_call (what e)) (trace (fst (run sc E))) = true ->
  map what (firstn 5 (trace (fst (run sc E)))) = session_calls /\
  forallb returned (firstn 5 (trace (fst (run sc E)))) = true /\
  allocated (firstn 5 (trace (fst (run sc E)))) = [Driver; Browser; Context; Page].
Proof.
  apply (session_first sc). apply run_straight_line.
Qed.

(** The run of TC008 in which the awaited text never becomes visible. *)
Lemma X3_witness :
  existsb (fun e => is_page_call (what e)) (trace (fst (run tc008 never_visible))) = true /\
  map what (firstn 5 (trace (fst (run tc008 never_visible)))) = session_calls /\
  forallb returned (firstn 5 (trace (fst (run tc008 never_visible)))) = true /\
  allocated (firstn 5 (trace (fst (run tc008 never_visible)))) =
    [Driver; Browser; Context; Page].
Proof.
  assert (existsb (fun e => is_page_call (what e))
            (trace (fst (run tc008 never_visible))) = true) as H
    by (vm_compute; reflexivity).
  split; [exact H |].
  exact (X3_session_before_any_page_call tc008 never_visible H).
Defined.

(** ** What the calls of a run are *)

Lemma is_prefix_forallb (P : call -> bool) l L :
  is_prefix l L -> forallb P L = true -> forallb P l = true.
Proof.
  revert L. induction l as [| c l IH]; intros L Hp HL; [reflexivity |].
  destruct L as [| d L]; simpl in Hp; [contradiction |].
  destruct Hp as [-> Hp]. simpl in *. apply andb_prop in HL as [H1 H2].
  rewrite H1. simpl. eapply IH; eassumption.
Qed.

Lemma frame_waits_forallb (P : call -> bool) :
  (forall r, P (load_state_call r) = true) ->
  forall n i, forallb P (frame_waits i n) = true.
Proof.
  intros HP. unfold frame_waits. induction n as [| n IH]; intros i; simpl.
  - reflexivity.
  - rewrite HP. simpl. apply IH.
Qed.

Lemma try_calls_forallb (P : call -> bool) sc n :
  forallb P session_calls = true ->
  P (Goto root_url Commit (Some 10000)) = true ->
  (forall r, P (load_state_call r) = true) ->
  forallb P (flat_map script_calls (actions_of sc)) = true ->
  forallb P (assertion_calls sc) = true ->
  P (Sleep 5) = true ->
  forallb P (try_calls sc n) = true.
Proof.
  intros H1 H2 H3 H4 H5 H6. unfold try_calls, setup_calls.
  rewrite !forallb_app. rewrite H1, H4, H5.
  rewrite (frame_waits_forallb P H3). simpl. now rewrite H2, H3, H6.
Qed.

Lemma straight_line_forallb (P : call -> bool) sc x :
  straight_line sc x ->
  (forall n, forallb P (try_calls sc n) = true) ->
  (forall c, is_release c = true -> P c = true) ->
  forallb (fun e => P (what e)) (trace (fst x)) = true.
Proof.
  intros (n & body & rel & Ht & Hp & _ & Hrel & _) HP Hr.
  rewrite Ht, forallb_app. apply andb_true_intro. split.
  - assert (forallb P (map what body) = true) as Hm
      by (eapply is_prefix_forallb; [exact Hp | apply HP]).
    clear -Hm. induction body as [| e body IH]; simpl in *; [reflexivity |].
    apply andb_prop in Hm as [H1 H2]. rewrite H1. simpl. now apply IH.
  - clear -Hrel Hr. induction rel as [| e rel IH]; simpl in *; [reflexivity |].
    apply andb_prop in Hrel as [H1 H2]. rewrite (Hr _ H1). simpl. now apply IH.
Qed.

(** X4.  Whatever the browser does, a run sends nothing elsewhere: every
    navigation of the log goes to an address that starts with
    [http://localhost:3000], and every fill types [example@gmail.com] or
    [password123]. *)
Theorem X4_runs_stay_local (sc : scenario) (E : env) :
  forallb (fun e => stays_local (what e)) (trace (fst (run sc E))) = true /\
  forallb (fun e => stays_local (what e)) (trace (fst (run_test sc E initial))) = true.
Proof.
  assert (forall n, forallb stays_local (try_calls sc n) = true) as H.
  { intros n. apply try_calls_forallb; try reflexivity.
    - destruct sc; vm_compute; reflexivity.
    - destruct sc; reflexivity. }
  split; apply (straight_line_forallb stays_local sc); auto;
    try (intros c Hc; destruct c; try discriminate; reflexivity).
  - apply run_straight_line.
  - apply run_test_straight_line.
Qed.

(** ** The pause before each operation *)

Lemma pauses_written_none L :
  forallb (fun c => negb (is_operation_call c)) L = true ->
  forall p, pauses_written p L = true.
Proof.
  induction L as [| c L IH]; simpl; [reflexivity |].
  intros H p. apply andb_prop in H as [H1 H2].
  destruct (is_operation_call c); [discriminate |]. simpl. now apply IH.
Qed.

Lemma pauses_written_app_none L1 L2 :
  forallb (fun c => negb (is_operation_call c)) L1 = true ->
  (forall p, pauses_written p L2 = true) ->
  forall p, pauses_written p (L1 ++ L2) = true.
Proof.
  induction L1 as [| c L1 IH]; simpl; [auto |].
  intros H H2 p. apply andb_prop in H as [Hc HL].
  destruct (is_operation_call c); [discriminate |]. simpl. now apply IH.
Qed.

Lemma pauses_written_actions l R :
  (forall p, pauses_written p R = true) ->
  forall p, pauses_written p (flat_map script_calls l ++ R) = true.
Proof.
  intros HR. induction l as [| a l IH]; intros p; [apply HR |].
  destruct a; simpl; apply IH.
Qed.

Lemma pauses_written_try_calls sc n p : pauses_written p (try_calls sc n) = true.
Proof.
  unfold try_calls. apply pauses_written_app_none.
  - unfold setup_calls. rewrite !forallb_app.
    rewrite (frame_waits_forallb (fun c => negb (is_operation_call c)));
      reflexivity.
  - apply pauses_written_actions. apply pauses_written_none.
    destruct sc; reflexivity.
Qed.

Lemma passed_pause e :
  is_pause_call (what e) = true -> passed e = true -> is_pause e = true.
Proof.
  unfold passed, is_pause, returned.
  destruct (what e); simpl; try discriminate.
  intros ->. destruct (raises (answer e)); [discriminate | reflexivity].
Qed.

Lemma not_pause e : is_pause_call (what e) = false -> is_pause e = false.
Proof.
  unfold is_pause. destruct (what e); simpl; try reflexivity.
  now intros ->.
Qed.

Lemma paused_of_written t : forall L p,
  is_prefix (map what t) L ->
  pauses_written p L = true ->
  passed_until_last t = true ->
  paused_before_operations p t = true.
Proof.
  induction t as [| e t IH]; intros L p Hp Hw Hl; [reflexivity |].
  destruct L as [| c L]; simpl in Hp; [contradiction |].
  destruct Hp as [Hc Hp]. simpl in Hw. apply andb_prop in Hw as [Hw1 Hw2].
  cbn [paused_before_operations].
  change (is_operation e) with (is_operation_call (what e)).
  rewrite Hc, Hw1. simpl.
  destruct t as [| e' t]; [reflexivity |].
  cbn [passed_until_last] in Hl. apply andb_prop in Hl as [Hl1 Hl2].
  destruct (is_pause_call c) eqn:Ec.
  - rewrite passed_pause; [| now rewrite Hc | assumption].
    eapply IH; eassumption.
  - rewrite not_pause by now rewrite Hc.
    eapply IH; eassumption.
Qed.

Lemma paused_then_releases body rel : forall p,
  paused_before_operations p body = true ->
  forallb (fun e => is_release (what e)) rel = true ->
  paused_before_operations p (body ++ rel) = true.
Proof.
  induction body as [| e body IH]; intros p Hb Hr.
  - simpl. clear Hb. revert p.
    induction rel as [| e rel IHr]; intros p; [reflexivity |].
    simpl in Hr. apply andb_prop in Hr as [H1 H2].
    cbn [paused_before_operations].
    unfold is_operation. destruct (what e); try discriminate; simpl;
      now apply IHr.
  - cbn [app paused_before_operations] in *.
    apply andb_prop in Hb as [H1 H2]. rewrite H1. simpl. now apply IH.
Qed.

Lemma straight_line_paused sc x :
  straight_line sc x -> paused_before_operations false (trace (fst x)) = true.
Proof.
  intros (n & body & rel & Ht & Hp & Hl & Hrel & _). rewrite Ht.
  apply paused_then_releases; [| assumption].
  eapply paused_of_written; [exact Hp | apply pauses_written_try_calls | exact Hl].
Qed.

(** X5.  Whatever the browser does, no fill and no click is made without
    its pause: in the log of every run, the entry just before a fill or a
    click is a [wait_for_timeout(3000)] that returned. *)
Theorem X5_pause_before_every_operation (sc : scenario) (E : env) :
  paused_before_operations false (trace (fst (run sc E))) = true /\
  paused_before_operations false (trace (fst (run_test sc E initial))) = true.
Proof.
  split; apply (straight_line_paused sc);
    [apply run_straight_line | apply run_test_straight_line].
Qed.

(** ** The outcomes of the files *)

(** X6.  The outcomes of the four files, whatever the browser does.  Only
    TC007 can return normally.  A run ends with an [AssertionError] of the
    script only in TC007, with the message of its [assert] statement; with
    a [NameError] only in TC001 and TC008, for the name [expect]; with a
    [SyntaxError] only in TC003, on line 336; TC003 ends in no other way. *)
Theorem X6_outcomes_of_the_files (sc : scenario) (E : env) :
  outcome_of_file sc (snd (run sc E)).
Proof.
  destruct sc;
    try (unfold run, main; rewrite TC003_main; simpl; auto; fail);
    match goal with
    | |- outcome_of_file ?sc _ =>
        pose proof (proj2 (run_test_outcome sc E)) as H
    end;
    unfold run, main;
    destruct (snd (run_test _ E initial)) as [u | [x | n | m | | l]];
    simpl in *; auto; try discriminate; try tauto;
    try (destruct H as [H1 H2]; congruence);
    try (split; [apply H | auto]).
Qed.

(** ** A browser in which nothing breaks *)

Section Cooperative.

Variable E : env.
Hypothesis coop : cooperative E.

Lemma coop_bind (m k : M unit) r :
  (forall s, snd (m E s) = Ok tt) ->
  (forall s, snd (k E s) = r) ->
  forall s, snd ((m ;; k) E s) = r.
Proof.
  intros Hm Hk s. unfold bind. specialize (Hm s).
  destruct (m E s) as [s1 [[] | e]]; simpl in *; [apply Hk | discriminate].
Qed.

Lemma coop_bind_raise (m k : M unit) e :
  (forall s, snd (m E s) = Raise e) ->
  forall s, snd ((m ;; k) E s) = Raise e.
Proof.
  intros Hm s. unfold bind. specialize (Hm s).
  destruct (m E s) as [s1 [[] | e1]]; simpl in *; [discriminate | assumption].
Qed.

Lemma coop_api_ c :
  is_load_state_wait c = false -> forall s, snd (api_ c E s) = Ok tt.
Proof.
  intros Hc s. unfold api_, api, bind, ret.
  now rewrite (proj1 coop (trace s) c Hc).
Qed.

Lemma coop_pages_last s : snd (pages_last E s) = Ok tt.
Proof.
  unfold pages_last. destruct (Nat.eqb_spec (open_pages E (trace s)) 0) as [H | H].
  - now apply (proj2 (proj2 coop)) in H.
  - reflexivity.
Qed.

Lemma coop_wait_for_load_state r s : snd (wait_for_load_state r E s) = Ok tt.
Proof.
  unfold wait_for_load_state, try_except, api_, api, bind, ret.
  destruct (raises (respond E (trace s) _)) as [x |] eqn:Er; [| reflexivity].
  apply (proj1 (proj2 coop)) in Er.
  destruct x; simpl in *; try discriminate; reflexivity.
Qed.

Lemma coop_frames n : forall i s,
  snd (for_range i n (fun j => wait_for_load_state (OnFrame j)) E s) = Ok tt.
Proof.
  induction n as [| n IH]; intros i s; [reflexivity |].
  simpl. apply coop_bind; [apply coop_wait_for_load_state | apply IH].
Qed.

Lemma coop_assign c set_v :
  is_load_state_wait c = false ->
  (forall s, snd (set_v E s) = Ok tt) ->
  forall s, snd (assign c set_v E s) = Ok tt.
Proof. intros Hc Hs. unfold assign. apply coop_bind; [now apply coop_api_ | assumption]. Qed.

Lemma coop_setup s : snd (setup E s) = Ok tt.
Proof.
  revert s. unfold setup, first_navigation, goto.
  repeat (apply coop_bind;
          [first [ reflexivity
                 | apply coop_assign; reflexivity
                 | apply coop_api_; reflexivity
                 | apply coop_wait_for_load_state ] |]).
  intros s. apply coop_frames.
Qed.

Lemma coop_exec a s : snd (exec a E s) = Ok tt.
Proof.
  revert s. destruct a; simpl; unfold goto, fill_step, click_step;
    repeat (apply coop_bind; [first [apply coop_pages_last
                                    | apply coop_api_; reflexivity] |]);
    apply coop_api_; reflexivity.
Qed.

Lemma coop_run_actions l : forall s, snd (run_actions l E s) = Ok tt.
Proof.
  induction l as [| a l IH]; [reflexivity |].
  simpl. apply coop_bind; [apply coop_exec | apply IH].
Qed.

Lemma coop_sleep s : snd (sleep 5 E s) = Ok tt.
Proof.
  revert s. unfold sleep.
  apply coop_bind; [reflexivity | apply coop_api_; reflexivity].
Qed.

Lemma coop_teardown s : snd (teardown E s) = Ok tt.
Proof.
  assert (forall (v : state -> bool) c,
             is_release c = true -> forall s0, snd (when v (api_ c) E s0) = Ok tt) as Hw.
  { intros v c Hc s0. unfold when. destruct (v s0); [| reflexivity].
    apply coop_api_. destruct c; try discriminate; reflexivity. }
  revert s. unfold teardown.
  repeat (apply coop_bind; [now apply Hw |]). now apply Hw.
Qed.

Lemma coop_expect_visible text message s :
  snd (expect_visible text message E s) = Raise (NameError "expect").
Proof.
  revert s. unfold expect_visible.
  apply coop_bind; [apply coop_pages_last | reflexivity].
Qed.

Lemma coop_TC007_assertion visible :
  (forall h l, truth (respond E h (IsVisible l)) = visible) ->
  forall s, snd ((TC007.assertion ;; sleep 5) E s) =
            if visible then Ok tt else Raise (AssertionError TC007.message).
Proof.
  intros Hv.
  assert (forall s, snd (TC007.assertion E s) =
                    if visible then Ok tt else Raise (AssertionError TC007.message))
    as Ha.
  { unfold TC007.assertion.
    repeat (apply coop_bind; [first [apply coop_pages_last
                                    | apply coop_api_; reflexivity] |]).
    intros s. unfold api, bind, ret, raise.
    rewrite (proj1 coop) by reflexivity. rewrite Hv. now destruct visible. }
  destruct visible.
  - apply coop_bind; [exact Ha | apply coop_sleep].
  - apply coop_bind_raise. exact Ha.
Qed.

Lemma coop_finally (body : M unit) s :
  snd (try_finally body teardown E s) = snd (body E s).
Proof.
  unfold try_finally. destruct (body E s) as [s1 r1].
  pose proof (coop_teardown s1) as H.
  destruct (teardown E s1) as [s2 [[] | e]]; simpl in *; [reflexivity | discriminate].
Qed.

Lemma coop_run sc visible :
  (forall h l, truth (respond E h (IsVisible l)) = visible) ->
  snd (run sc E) = cooperative_outcome sc visible.
Proof.
  intros Hv.
  destruct sc; try (unfold run, main; now rewrite TC003_main);
    unfold run, main;
    match goal with
    | |- snd (run_test ?sc E initial) = _ =>
        change (run_test sc) with (try_finally (setup ;; after_setup sc) teardown)
    end;
    rewrite coop_finally; unfold after_setup;
    (apply coop_bind; [apply coop_setup |]);
    (apply coop_bind; [apply coop_run_actions |]); simpl.
  - apply coop_bind_raise. apply coop_expect_visible.
  - now apply coop_TC007_assertion.
  - apply coop_bind_raise. apply coop_expect_visible.
Qed.

End Cooperative.

(** X7.  When nothing breaks (every call other than a load-state wait
    returns, load-state waits return or raise an [Error], and the context
    has a page), the outcome of each file is fixed: TC001 and TC008 end
    with [NameError: expect] even then, TC003 with its [SyntaxError], and
    TC007 returns normally exactly when [is_visible] answers true and ends
    with the message of its [assert] statement when it answers false. *)
Theorem X7_outcome_when_nothing_breaks (sc : scenario) (E : env) (visible : bool) :
  cooperative E ->
  (forall h l, truth (respond E h (IsVisible l)) = visible) ->
  snd (run sc E) = cooperative_outcome sc visible /\
  exit_code (snd (run sc E)) = if uses_expect sc then 1 else if visible then 0 else 1.
Proof.
  intros Hc Hv. rewrite (coop_run E Hc sc visible Hv).
  split; [reflexivity |]. destruct sc, visible; reflexivity.
Qed.

(** The browser in which the load-state waits time out and the element is
    present but hidden. *)
Lemma X7_witness :
  cooperative slow_load_hidden /\
  (forall h l, truth (respond slow_load_hidden h (IsVisible l)) = false) /\
  snd (run tc007 slow_load_hidden) = cooperative_outcome tc007 false /\
  exit_code (snd (run tc007 slow_load_hidden)) = 1.
Proof.
  assert (cooperative slow_load_hidden) as Hc.
  { repeat split.
    - intros h c Hc. destruct c; try discriminate; reflexivity.
    - intros h c x. destruct c; simpl; try discriminate.
      destruct timeout; simpl; [| discriminate].
      intros H. inversion H. reflexivity.
    - intros h. discriminate. }
  assert (forall h l, truth (respond slow_load_hidden h (IsVisible l)) = false)
    as Hv by reflexivity.
  split; [exact Hc |]. split; [exact Hv |].
  exact (X7_outcome_when_nothing_breaks tc007 slow_load_hidden false Hc Hv).
Defined.

(** ** The [assert] statement of TC007 *)

Lemma TC007_assertion_hidden :
  triple (fun _ => True) any_state TC007.assertion any_state
         assertion_only_when_hidden.
Proof.
  intros E s s' r _ H. split.
  - destruct (follows_assertion tc007 E s) as (t & Ht & _).
    simpl assertion_of in Ht. rewrite H in Ht. simpl in Ht.
    exists t. split; [exact Ht |]. now apply Forall_forall.
  - unfold TC007.assertion, pages_last, api_, api, bind, ret, raise in H.
    repeat match type of H with
           | context [Nat.eqb ?a ?b] => destruct (Nat.eqb a b); simpl in H
           | context [raises (respond ?E0 ?h ?c)] =>
               let Er := fresh "Er" in
               destruct (raises (respond E0 h c)) eqn:Er; simpl in H
           | context [truth ?x] =>
               let Et := fresh "Et" in
               destruct (truth x) eqn:Et; simpl in H
           end;
      inversion H; subst; try exact I.
    simpl. eexists (trace s), _, _. split; [now rewrite <- app_assoc |].
    unfold returned. simpl. rewrite Er, Er0, Et. repeat split.
Qed.

Lemma not_assertion_when_hidden sc e s :
  sc <> tc007 -> allowed_exn sc e -> assertion_only_when_hidden e s.
Proof.
  intros Hsc. destruct e; simpl; auto. intros [H _]. contradiction.
Qed.

Lemma TC007_try_block_hidden :
  triple (fun _ => True) session_inv (setup ;; after_setup tc007) any_state
         assertion_only_when_hidden.
Proof.
  assert (tc001 <> tc007) as Hne by discriminate.
  apply (triple_bind _ _ _ session_inv body_inv).
  { eapply triple_entries; [intros e _; exact I |].
    eapply triple_weaken; [apply (setup_spec tc001) | | |]; auto.
    intros e s [_ He]. now apply (not_assertion_when_hidden tc001). }
  intros _. unfold after_setup.
  apply (triple_bind _ _ _ body_inv any_state).
  { eapply triple_entries; [intros e _; exact I |].
    eapply triple_weaken;
      [apply (body_run_actions body_entry body_inv (allowed_exn tc001));
       solve [apply body_inv_body_call | intros; exact I] | | |];
      unfold any_state; auto.
    intros e s [_ He]. now apply (not_assertion_when_hidden tc001). }
  intros _.
  apply (triple_bind _ _ _ any_state any_state); [apply TC007_assertion_hidden |].
  intros _. unfold sleep.
  apply (triple_bind _ _ _ any_state any_state);
    [apply triple_name; [auto | discriminate] |].
  intros _. apply triple_api_. intros E s _ e. split; [exact I |].
  destruct (raises (answer e)); exact I.
Qed.

(** X8.  TC007 ends with the message of its [assert] statement only after
    the element was reported present and then hidden: in the log,
    [elem.wait_for(state="visible", timeout=5000)] returned, the
    [is_visible] just after it returned false, and nothing but release
    calls follows.  So when the element never shows, and the wait times
    out, the run does not end with the [AssertionError]. *)
Theorem X8_assert_only_after_element_shown (E : env) (m : string) :
  snd (run tc007 E) = Raise (AssertionError m) ->
  m = TC007.message /\
  exists rel,
    reported_hidden (trace (fst (run tc007 E))) rel /\
    forallb (fun e => is_release (what e)) rel = true.
Proof.
  intros H. split.
  { pose proof (X := proj2 (run_test_outcome tc007 E)).
    unfold run, main in H. rewrite H in X. apply X. }
  unfold run, main in *.
  change (run_test tc007)
    with (try_finally (setup ;; after_setup tc007) teardown) in *.
  unfold try_finally in *.
  destruct ((setup ;; after_setup tc007) E initial) as [s1 r1] eqn:Eb.
  destruct (TC007_try_block_hidden E initial s1 r1 session_inv_initial Eb)
    as [_ Hx].
  destruct (teardown_attempts E s1) as (rel & Htd & Hpre & _).
  assert (forallb (fun e => is_release (what e)) rel = true) as Hrel.
  { eapply release_calls_only; [exact Hpre |].
    destruct (context s1), (browser s1), (pw s1); reflexivity. }
  destruct (teardown E s1) as [s2 r2] eqn:Et.
  destruct (teardown_spec E s1 s2 r2 I Et) as [_ Ha].
  destruct r2 as [u | e2]; simpl in *.
  - subst r1. simpl in Hx. destruct Hx as (pre & wf & iv & Hs & Hrest).
    exists rel. split; [| exact Hrel].
    exists pre, wf, iv. split; [| exact Hrest].
    rewrite Htd, Hs, <- app_assoc. reflexivity.
  - inversion H; subst. contradiction.
Qed.

(** The browser in which the element is present but hidden. *)
Lemma X8_witness :
  snd (run tc007 slow_load_hidden) = Raise (AssertionError TC007.message) /\
  TC007.message = TC007.message /\
  exists rel,
    reported_hidden (trace (fst (run tc007 slow_load_hidden))) rel /\
    forallb (fun e => is_release (what e)) rel = true.
Proof.
  assert (snd (run tc007 slow_load_hidden) = Raise (AssertionError TC007.message))
    as H by (vm_compute; reflexivity).
  split; [exact H |].
  exact (X8_assert_only_after_element_shown slow_load_hidden TC007.message H).
Defined.

(** When the wait for the element times out, TC007 ends with the
    [TimeoutError] of the wait. *)
Example TC007_element_never_shown :
  snd (run tc007 never_visible) = Raise (Api ApiTimeoutError).
Proof. vm_compute. reflexivity. Qed.

(** ** A close call that raises *)

Lemma raises_entry E h c :
  raises (answer (entry_of E h c)) = raises (respond E h c).
Proof. reflexivity. Qed.

Lemma teardown_raising E s :
  exists rel,
    trace (fst (teardown E s)) = (trace s ++ rel)%list /\
    forall e x, In e rel -> raises (answer e) = Some x ->
      snd (teardown E s) = Raise (Api x) /\ exists pre, rel = (pre ++ [e])%list.
Proof.
  unfold teardown, when, api_, api, bind, ret.
  destruct s as [p b c t]. simpl.
  destruct c, b, p; simpl;
    repeat match goal with
           | |- context [raises (respond ?E ?h ?c)] =>
               let Er := fresh "Er" in
               destruct (raises (respond E h c)) eqn:Er; simpl
           end;
    repeat match goal with
           | |- context [entry_of ?E0 ?h ?c0] =>
               let en := fresh "en" in set (en := entry_of E0 h c0)
           end;
    first [ exists []; rewrite app_nil_r; split; [reflexivity |]
          | eexists [_]; split; [reflexivity |]
          | eexists [_; _]; split; [now rewrite <- app_assoc |]
          | eexists [_; _; _]; split; [now rewrite <- !app_assoc |] ];
    intros e x Hin Hx; simpl in Hin;
    repeat match goal with
           | H : _ \/ _ |- _ => destruct H as [H | H]
           | H : False |- _ => contradiction
           end;
    subst e;
    repeat match goal with
           | en := _ |- _ => subst en
           end;
    rewrite raises_entry in Hx;
    try congruence;
    (split; [congruence |]);
    first [ exists []; reflexivity
          | eexists [_]; reflexivity
          | eexists [_; _]; reflexivity ].
Qed.

(** X9.  A close call that raises ends the [finally] block: whatever the
    outcome of the [try] block was, the run ends with the exception of
    that call, which is the last entry of the log, so the close calls
    written after it are not made. *)
Theorem X9_raising_close_ends_the_run
    (sc : scenario) (E : env) (e : entry) (x : api_exc) :
  In e (trace (fst (run sc E))) ->
  is_release (what e) = true ->
  raises (answer e) = Some x ->
  snd (run sc E) = Raise (Api x) /\
  exists pre, trace (fst (run sc E)) = (pre ++ [e])%list.
Proof.
  assert (forall sc0,
             In e (trace (fst (run_test sc0 E initial))) ->
             is_release (what e) = true ->
             raises (answer e) = Some x ->
             snd (run_test sc0 E initial) = Raise (Api x) /\
             exists pre, trace (fst (run_test sc0 E initial)) = (pre ++ [e])%list)
    as Hrun.
  { intros sc0.
    change (run_test sc0) with (try_finally (setup ;; after_setup sc0) teardown).
    unfold try_finally.
    destruct ((setup ;; after_setup sc0) E initial) as [s1 r1] eqn:Eb.
    destruct (try_block_spec sc0 E initial s1 r1 session_inv_initial Eb)
      as [(t & Ht & Ft) _].
    destruct (teardown_raising E s1) as (rel & Htd & Hrel).
    destruct (teardown E s1) as [s2 r2]. simpl in *.
    assert (trace (fst (match r2 with
                        | Ok _ => (s2, r1)
                        | Raise e0 => (s2, Raise e0)
                        end)) = (t ++ rel)%list) as Htr
      by (destruct r2; simpl; now rewrite Htd, Ht).
    rewrite Htr. intros Hin Hr Hx.
    apply in_app_or in Hin as [Hin | Hin].
    - rewrite Forall_forall in Ft. destruct (Ft e Hin) as [_ Hn].
      unfold not_release in Hn. congruence.
    - destruct (Hrel e x Hin Hx) as [Hs (pre & Hp)]. subst r2. split.
      + reflexivity.
      + exists (t ++ pre)%list. now rewrite Hp, app_assoc. }
  destruct sc;
    [ apply Hrun
    | unfold run, main; rewrite TC003_main; simpl; contradiction
    | apply Hrun
    | apply Hrun ].
Qed.

(** The run of TC001 in which [context.close()] raises. *)
Lemma X9_witness :
  let e := Entry CloseContext None (Reply (Some ApiError) 100 false) in
  In e (trace (fst (run tc001 close_context_fails))) /\
  is_release (what e) = true /\
  raises (answer e) = Some ApiError /\
  snd (run tc001 close_context_fails) = Raise (Api ApiError) /\
  exists pre, trace (fst (run tc001 close_context_fails)) = (pre ++ [e])%list.
Proof.
  intros e.
  assert (In e (trace (fst (run tc001 close_context_fails)))) as H.
  { vm_compute. repeat (first [left; reflexivity | right]). }
  split; [exact H |]. split; [reflexivity |]. split; [reflexivity |].
  exact (X9_raising_close_ends_the_run tc001 close_context_fails e ApiError
           H eq_refl eq_refl).
Defined.
